(** * vidyut_walla: the campus energy dashboard core

    A shallow embedding of the vanilla-module core of the dashboard
    (utils.js, config.js, stateManager.js, dataManager.js, authService.js)
    and the properties of its data generator, history buffer, store and
    mock authentication.

    Modelling conventions.
    - A JavaScript number is a rational [Q]: the arithmetic of the code is
      read exactly, [NaN] and the infinities are not values of the model.
      Numbers are compared with [==] ([Qeq]), the equality of rationals.
    - [Math.random()] and [new Date()] are inputs: the generator receives
      the sequence of draws ([rand i] is the result of the i-th call) and
      the clock reading.
    - The objects used as maps ([state], [listeners], the session
      storage) are finite maps from strings; the properties every object
      inherits are not keys of the model.
    - A subscriber callback is a reference (a [nat]); what the function
      does when it is called is given by a [behaviour]: it returns, or it
      raises.  Callbacks are observers: they do not call back into the
      store.
    - A promise is modelled by the way it ends; timers only delay.
    - The store, the session storage and the record of callback
      invocations form a [World]; methods are computations in a small
      state-and-exception monad over it. *)

From Stdlib Require Import QArith Qround Qabs Lqa ZArith Lia.
From stdpp Require Import gmap strings list.

Local Open Scope Q_scope.

(** ** utils.js *)

Module Utils.

(** [Math.min] and [Math.max] on two numbers. *)
Definition Math_min (a b : Q) : Q := if Qle_bool a b then a else b.
Definition Math_max (a b : Q) : Q := if Qle_bool a b then b else a.

(** [clamp(value, min, max) = Math.max(min, Math.min(max, value))]. *)
Definition clamp (value min max : Q) : Q :=
  Math_max min (Math_min max value).

(** The string produced by [Number.prototype.toFixed]: either the digits
    of an integer [n] printed with [decimals] fractional digits (the
    text of [n / 10^decimals]), or, for magnitudes from [10^21] on, the
    shortest text that reads back as the number itself. *)
Inductive numeral : Type :=
| Fixed (n : Z) (decimals : nat)
| Shortest (x : Q).

(** The signed integer [n] printed by [x.toFixed(decimals)]: for [x < 0]
    the sign is split off first; then [n] is the integer for which
    [n / 10^decimals - x] is closest to zero, the larger one on a tie. *)
Definition toFixed_integer (x : Q) (decimals : nat) : Z :=
  let n := Qfloor (Qabs x * inject_Z (10 ^ Z.of_nat decimals) + (1 # 2)) in
  if Qle_bool 0 x then n else (- n)%Z.

(** [x.toFixed(decimals)]. *)
Definition toFixed (x : Q) (decimals : nat) : numeral :=
  if Qle_bool (inject_Z (10 ^ 21)) (Qabs x) then Shortest x
  else Fixed (toFixed_integer x decimals) decimals.

(** [formatNumber(num, decimals = 1)] on a number (a value of another
    type is returned as it is; the callers modelled here pass numbers). *)
Definition formatNumber (num : Q) (decimals : nat) : numeral :=
  toFixed num decimals.

(** [parseFloat] on the text of a number. *)
Definition parseFloat (s : numeral) : Q :=
  match s with
  | Fixed n decimals => inject_Z n / inject_Z (10 ^ Z.of_nat decimals)
  | Shortest x => x
  end.

End Utils.

(** ** config.js *)

Module Config.

Record CampusInfo : Type := {
  solar_capacity : Q;
  wind_capacity : Q;
  battery_capacity : Q;
  peak_demand : Q
}.

Record Thresholds : Type := {
  battery_low : Q;
  battery_high : Q;
  load_high : Q;
  performance_min : Q
}.

Record Simulation : Type := {
  solar_variation : Q;
  wind_variation : Q;
  load_variation : Q;
  battery_variation : Q;
  temperature_variation : Q;
  wind_speed_variation : Q;
  irradiance_variation : Q
}.

Record Config : Type := {
  UPDATE_INTERVAL : Q;
  CAMPUS_INFO : CampusInfo;
  THRESHOLDS : Thresholds;
  SIMULATION : Simulation
}.

Definition CONFIG : Config := {|
  UPDATE_INTERVAL := 5000;
  CAMPUS_INFO := {|
    solar_capacity := 500;
    wind_capacity := 100;
    battery_capacity := 800;
    peak_demand := 450 |};
  THRESHOLDS := {|
    battery_low := 20;
    battery_high := 90;
    load_high := 400;
    performance_min := 85 |};
  SIMULATION := {|
    solar_variation := 10;
    wind_variation := 3;
    load_variation := 8;
    battery_variation := 1 # 2;
    temperature_variation := 1 # 2;
    wind_speed_variation := 3 # 10;
    irradiance_variation := 20 |}
|}.

End Config.

(** ** The status snapshot *)

Record Weather : Type := {
  temperature : Q;
  wind_speed : Q;
  irradiance : Q;
  cloud_cover : Q
}.

Record Status : Type := {
  timestamp : string;
  solar_generation : Q;
  wind_generation : Q;
  total_generation : Q;
  campus_load : Q;
  battery_soc : Q;
  battery_power : Q;
  grid_power : Q;
  weather : Weather
}.

(** ** Values held by the store *)

Record HistoryPoint : Type := {
  time : string;
  solar : Q;
  wind : Q;
  load : Q;
  battery : Q
}.

Record User : Type := {
  name : string;
  username : string
}.

#[local] Set Warnings "-register-all".

(** The JavaScript values the application keeps under the store's keys. *)
Inductive value : Type :=
| VUndefined
| VNull
| VBool (b : bool)
| VNumber (q : Q)
| VString (s : string)
| VStatus (s : Status)
| VPoint (p : HistoryPoint)
| VUser (u : User)
| VArray (items : list value).

(** [ToBoolean]: what [||] and [if] test. *)
Definition truthy (v : value) : bool :=
  match v with
  | VUndefined | VNull => false
  | VBool b => b
  | VNumber q => negb (Qeq_bool q 0)
  | VString EmptyString => false
  | VString _ => true
  | VStatus _ | VPoint _ | VUser _ | VArray _ => true
  end.

(** ** Effects: the world and its monad *)

(** A callback is a reference to a function object. *)
Definition callback : Type := nat.

(** A raised exception, by its message. *)
Definition error : Type := string.

(** What calling a function object with a value does: [None] when the call
    returns, [Some e] when it raises [e]. *)
Definition behaviour : Type := callback -> value -> option error.

(** The two fields of a [StateManager] instance. *)
Record Store : Type := {
  state : gmap string value;
  listeners : gmap string (list callback)
}.

Record World : Type := {
  stateManager : Store;
  sessionStorage : gmap string string;
  invoked : list (callback * value)
}.

Inductive completion (A : Type) : Type :=
| Normal (a : A)
| Throw (e : error).
Arguments Normal {A} a.
Arguments Throw {A} e.

Definition Eff (A : Type) : Type := World -> completion A * World.

Definition ret {A : Type} (a : A) : Eff A := fun w => (Normal a, w).

Definition bind {A B : Type} (m : Eff A) (k : A -> Eff B) : Eff B :=
  fun w =>
    match m w with
    | (Normal a, w') => k a w'
    | (Throw e, w') => (Throw e, w')
    end.

Definition throw {A : Type} (e : error) : Eff A := fun w => (Throw e, w).

Notation "m ;; k" := (bind m (fun _ => k))
  (at level 100, right associativity).

(** The world reached by a computation, whether it returned or raised. *)
Definition after {A : Type} (m : Eff A) (w : World) : World := snd (m w).

(** The callback invocations a computation adds to the record. *)
Definition calls {A : Type} (m : Eff A) (w : World) : list (callback * value) :=
  drop (length (invoked w)) (invoked (after m w)).

(** ** stateManager.js *)

Module StateManager.

Definition with_state (f : gmap string value -> gmap string value) : Eff unit :=
  fun w =>
    (Normal tt,
     {| stateManager := {| state := f (state (stateManager w));
                           listeners := listeners (stateManager w) |};
        sessionStorage := sessionStorage w;
        invoked := invoked w |}).

Definition with_listeners
    (f : gmap string (list callback) -> gmap string (list callback)) : Eff unit :=
  fun w =>
    (Normal tt,
     {| stateManager := {| state := state (stateManager w);
                           listeners := f (listeners (stateManager w)) |};
        sessionStorage := sessionStorage w;
        invoked := invoked w |}).

(** [get(key)]: [this.state[key]], [undefined] for a key never set. *)
Definition get (key : string) (w : World) : value :=
  default VUndefined (state (stateManager w) !! key).

(** The listener array of a key, if there is one. *)
Definition listeners_of (key : string) (w : World) : option (list callback) :=
  listeners (stateManager w) !! key.

(** One call [callback(value)]: recorded, then it returns or raises. *)
Definition call (beh : behaviour) (cb : callback) (v : value) : Eff unit :=
  fun w =>
    (match beh cb v with
     | None => Normal tt
     | Some e => Throw e
     end,
     {| stateManager := stateManager w;
        sessionStorage := sessionStorage w;
        invoked := invoked w ++ [(cb, v)] |}).

(** [array.forEach(callback => callback(value))]: an exception leaves the
    loop. *)
Fixpoint forEach (beh : behaviour) (cbs : list callback) (v : value) : Eff unit :=
  match cbs with
  | [] => ret tt
  | cb :: rest => call beh cb v ;; forEach beh rest v
  end.

(** [notify(key, value)]. *)
Definition notify (beh : behaviour) (key : string) (v : value) : Eff unit :=
  fun w =>
    match listeners_of key w with
    | Some cbs => forEach beh cbs v w
    | None => (Normal tt, w)
    end.

(** [set(key, value)]. *)
Definition set (beh : behaviour) (key : string) (v : value) : Eff unit :=
  with_state <[key := v]> ;; notify beh key v.

(** The function returned by [subscribe]: a closure over [key] and
    [callback]. *)
Record Unsubscribe : Type := {
  closure_key : string;
  closure_callback : callback
}.

(** [subscribe(key, callback)]. *)
Definition subscribe (key : string) (cb : callback) : Eff Unsubscribe :=
  with_listeners
    (fun ls => match ls !! key with
               | Some cbs => <[key := cbs ++ [cb]]> ls
               | None => <[key := [cb]]> ls
               end) ;;
  ret {| closure_key := key; closure_callback := cb |}.

(** Calling the function returned by [subscribe]:
    [this.listeners[key] = this.listeners[key].filter(l => l !== callback)]. *)
Definition unsubscribe (u : Unsubscribe) : Eff unit :=
  fun w =>
    match listeners_of (closure_key u) w with
    | Some cbs =>
        with_listeners
          <[closure_key u := filter (fun l => l ≠ closure_callback u) cbs]> w
    | None => throw "TypeError: Cannot read properties of undefined (reading 'filter')" w
    end.

Definition setLoading (beh : behaviour) (isLoading : bool) : Eff unit :=
  set beh "loading" (VBool isLoading).
Definition setError (beh : behaviour) (errorMessage : string) : Eff unit :=
  set beh "error" (VString errorMessage).
Definition clearError (beh : behaviour) : Eff unit :=
  set beh "error" VNull.
Definition updateCurrentStatus (beh : behaviour) (status : Status) : Eff unit :=
  set beh "currentStatus" (VStatus status).
Definition updateHistoricalData (beh : behaviour) (data : value) : Eff unit :=
  set beh "historicalData" data.

Definition loginUser (beh : behaviour) (user : User) : Eff unit :=
  set beh "isAuthenticated" (VBool true) ;;
  set beh "user" (VUser user).

Definition logoutUser (beh : behaviour) : Eff unit :=
  set beh "isAuthenticated" (VBool false) ;;
  set beh "user" VNull.

(** The state the application starts from. *)
Definition initialState : gmap string value :=
  <["loading" := VBool true]>
  (<["error" := VNull]>
  (<["isAuthenticated" := VBool false]>
  (<["user" := VNull]>
  (<["currentStatus" := VNull]>
  (<["historicalData" := VArray []]>
  (<["forecasts" := VArray []]>
  (<["recommendations" := VArray []]>
  (<["alerts" := VArray []]> ∅)))))))).

(** [new StateManager(initialState)]. *)
Definition new (initial : gmap string value) : Store :=
  {| state := initial; listeners := ∅ |}.

Definition updateForecasts (beh : behaviour) (data : value) : Eff unit :=
  set beh "forecasts" data.
Definition updateRecommendations (beh : behaviour) (data : value) : Eff unit :=
  set beh "recommendations" data.
Definition updateAlerts (beh : behaviour) (data : value) : Eff unit :=
  set beh "alerts" data.

End StateManager.

(** The world at start-up: the store just constructed, nothing persisted,
    no callback called yet. *)
Definition initialWorld : World := {|
  stateManager := StateManager.new StateManager.initialState;
  sessionStorage := ∅;
  invoked := []
|}.

(** ** dataManager.js *)

Module DataManager.
Import Utils Config.

(** [parseFloat(formatNumber(x, decimals))]: what [roundNumericValues]
    does to a numeric leaf. *)
Definition round (decimals : nat) (x : Q) : Q :=
  parseFloat (formatNumber x decimals).

(** The local [updated] of [simulateRealTimeData] when the rounding is
    reached: [{ ...status }] with the perturbed fields, the rebuilt
    [weather], the derived fields and the new timestamp assigned.
    [rand i] is the result of the i-th call of [Math.random()], [now]
    the text of [new Date().toISOString()]. *)
Definition simulate_updated
    (cfg : Config) (rand : nat -> Q) (now : string) (status : Status) : Status :=
  let sim := SIMULATION cfg in
  let solar' :=
    clamp (solar_generation status + (rand 0%nat - (1 # 2)) * solar_variation sim)
          0 (solar_capacity (CAMPUS_INFO cfg)) in
  let wind' :=
    clamp (wind_generation status + (rand 1%nat - (1 # 2)) * wind_variation sim)
          0 (wind_capacity (CAMPUS_INFO cfg)) in
  let load' :=
    clamp (campus_load status + (rand 2%nat - (1 # 2)) * load_variation sim)
          200 (peak_demand (CAMPUS_INFO cfg)) in
  let soc' :=
    clamp (battery_soc status + (rand 3%nat - (1 # 2)) * battery_variation sim)
          (battery_low (THRESHOLDS cfg)) 100 in
  let weather' := {|
    temperature :=
      clamp (temperature (weather status)
             + (rand 4%nat - (1 # 2)) * temperature_variation sim) 25 40;
    wind_speed :=
      clamp (wind_speed (weather status)
             + (rand 5%nat - (1 # 2)) * wind_speed_variation sim) 0 15;
    irradiance :=
      clamp (irradiance (weather status)
             + (rand 6%nat - (1 # 2)) * irradiance_variation sim) 0 1000;
    cloud_cover := cloud_cover (weather status) |} in
  let total' := solar' + wind' in
  {| timestamp := now;
     solar_generation := solar';
     wind_generation := wind';
     total_generation := total';
     campus_load := load';
     battery_soc := soc';
     battery_power := battery_power status;
     grid_power := load' - total' - battery_power status;
     weather := weather' |}.

(** [roundNumericValues(obj, decimals = 1)] on the nested [weather]
    object: every key holds a number. *)
Definition roundNumericValues_weather (obj : Weather) (decimals : nat) : Weather :=
  {| temperature := round decimals (temperature obj);
     wind_speed := round decimals (wind_speed obj);
     irradiance := round decimals (irradiance obj);
     cloud_cover := round decimals (cloud_cover obj) |}.

(** [roundNumericValues(obj, decimals = 1)] on a status: numbers are
    rounded, the [weather] object is rounded recursively, the
    [timestamp] string is kept. *)
Definition roundNumericValues (obj : Status) (decimals : nat) : Status :=
  {| timestamp := timestamp obj;
     solar_generation := round decimals (solar_generation obj);
     wind_generation := round decimals (wind_generation obj);
     total_generation := round decimals (total_generation obj);
     campus_load := round decimals (campus_load obj);
     battery_soc := round decimals (battery_soc obj);
     battery_power := round decimals (battery_power obj);
     grid_power := round decimals (grid_power obj);
     weather := roundNumericValues_weather (weather obj) decimals |}.

(** [simulateRealTimeData(status)]. *)
Definition simulateRealTimeData
    (cfg : Config) (rand : nat -> Q) (now : string) (status : Status) : Status :=
  roundNumericValues (simulate_updated cfg rand now status) 1.

(** [maxPoints] of [addHistoricalDataPoint]:
    [Math.floor((24 * 60 * 60) / (CONFIG.UPDATE_INTERVAL / 1000))]. *)
Definition maxPoints (cfg : Config) : Z :=
  Qfloor ((24 * 60 * 60) / (UPDATE_INTERVAL cfg / 1000)).

(** The [newPoint] of [addHistoricalDataPoint]; [timeString] is the text
    of the clock reading. *)
Definition newPoint (timeString : string) (status : Status) : HistoryPoint :=
  {| time := timeString;
     solar := solar_generation status;
     wind := wind_generation status;
     load := campus_load status;
     battery := battery_soc status |}.

(** [historical.push(newPoint)] followed by the single
    [historical.shift()] taken when the array has grown past [limit]. *)
Definition push_shift (limit : Z) (historical : list value) (point : value)
    : list value :=
  let pushed := historical ++ [point] in
  if (limit <? Z.of_nat (length pushed))%Z then tail pushed else pushed.

(** [addHistoricalDataPoint(status)]. *)
Definition addHistoricalDataPoint
    (cfg : Config) (beh : behaviour) (timeString : string) (status : Status)
    : Eff unit :=
  fun w =>
    let stored := StateManager.get "historicalData" w in
    match (if truthy stored then stored else VArray []) with
    | VArray historical =>
        StateManager.updateHistoricalData beh
          (VArray (push_shift (maxPoints cfg) historical
                              (VPoint (newPoint timeString status)))) w
    | _ => throw "TypeError: historical.push is not a function" w
    end.

(** [updateRealTimeData()]: one tick. *)
Definition updateRealTimeData
    (cfg : Config) (beh : behaviour) (rand : nat -> Q)
    (now timeString : string) : Eff unit :=
  fun w =>
    match StateManager.get "currentStatus" w with
    | VStatus currentStatus =>
        let updated := simulateRealTimeData cfg rand now currentStatus in
        (StateManager.updateCurrentStatus beh updated ;;
         addHistoricalDataPoint cfg beh timeString updated) w
    | stored =>
        if truthy stored
        then throw "TypeError: Cannot read properties of undefined" w
        else ret tt w
    end.

(** A piece of a template literal: literal text, or a substituted
    number. *)
Inductive piece : Type :=
| Text (s : string)
| Subst (x : Q).

Record Alert : Type := {
  type : string;
  message : list piece;
  alert_timestamp : string
}.

Definition battery_alert (thresholds : Thresholds) (now : string) : Alert :=
  {| type := "warning";
     message := [Text "Battery SOC below "; Subst (battery_low thresholds);
                 Text "% - consider charging"];
     alert_timestamp := now |}.

Definition load_alert (thresholds : Thresholds) (now : string) : Alert :=
  {| type := "warning";
     message := [Text "Campus load exceeding "; Subst (load_high thresholds);
                 Text " kW - high demand detected"];
     alert_timestamp := now |}.

(** [checkThresholds(status)]; [now1] and [now2] are the texts of the two
    clock readings. *)
Definition checkThresholds
    (cfg : Config) (now1 now2 : string) (status : Status) : list Alert :=
  let thresholds := THRESHOLDS cfg in
  let alerts := [] in
  let alerts :=
    if Qlt_le_dec (battery_soc status) (battery_low thresholds)
    then alerts ++ [battery_alert thresholds now1] else alerts in
  let alerts :=
    if Qlt_le_dec (load_high thresholds) (campus_load status)
    then alerts ++ [load_alert thresholds now2] else alerts in
  alerts.

(** A row of the report of [generateHistoricalReport]. *)
Record ReportRow : Type := {
  date : string;
  generation : Q;
  consumption : Q;
  savings : Q
}.

(** The loop of [generateHistoricalReport] from [i = remaining - 1] down to
    [0]; [drawn] calls of [Math.random()] have been made so far, and
    [dateLabel i] is the text of the day [i] days before today. *)
Fixpoint report_rows (dateLabel : nat -> string) (rand : nat -> Q)
    (remaining drawn : nat) : list ReportRow :=
  match remaining with
  | O => []
  | S i =>
      {| date := dateLabel i;
         generation := round 1 (380 + rand drawn * 120);
         consumption := round 1 (320 + rand (drawn + 1)%nat * 80);
         savings := round 1 (3500 + rand (drawn + 2)%nat * 2000) |}
      :: report_rows dateLabel rand i (drawn + 3)
  end.

(** [generateHistoricalReport(days = 30)], for a whole number of days. *)
Definition generateHistoricalReport
    (dateLabel : nat -> string) (rand : nat -> Q) (days : Z) : list ReportRow :=
  report_rows dateLabel rand (Z.to_nat days) 0.

(** [calculateRenewablePercentage(status)]. *)
Definition calculateRenewablePercentage (status : Status) : Q :=
  let total := campus_load status in
  let renewable := total_generation status in
  if Qlt_le_dec 0 total then renewable / total * 100 else 0.

(** [calculateSelfSufficiency(status)]; [None] when the result is not a
    finite number, the load that divides being zero. *)
Definition calculateSelfSufficiency (status : Status) : option Q :=
  if Qlt_le_dec 0 (grid_power status)
  then
    if Qeq_bool (campus_load status) 0 then None
    else Some ((campus_load status - Qabs (grid_power status))
               / campus_load status * 100)
  else Some 100.

(** [categorizeGridInteraction(gridPower)]. *)
Definition categorizeGridInteraction (gridPower : Q) : string :=
  if Qlt_le_dec gridPower (- (10)) then "exporting"
  else if Qlt_le_dec 10 gridPower then "importing"
  else "balanced".

Record Metrics : Type := {
  renewablePercentage : Q;
  selfSufficiency : option Q;
  batteryEfficiency : Q;
  gridInteraction : string
}.

(** [calculateMetrics(status)] for a status object, or [null]
    ([None]). *)
Definition calculateMetrics (status : option Status) : option Metrics :=
  match status with
  | None => None
  | Some st =>
      Some {| renewablePercentage := calculateRenewablePercentage st;
              selfSufficiency := calculateSelfSufficiency st;
              batteryEfficiency := 476 # 5;
              gridInteraction := categorizeGridInteraction (grid_power st) |}
  end.

(** What the five requests of [loadInitialData] resolve with. *)
Record InitialData : Type := {
  api_status : Status;
  api_historical : value;
  api_forecasts : value;
  api_recommendations : value;
  api_alerts : value
}.

(** [try { body } finally { cleanup }]: the cleanup runs however the body
    ends, and an exception of the cleanup replaces the outcome. *)
Definition try_finally {A : Type} (body : Eff A) (cleanup : Eff unit) : Eff A :=
  fun w =>
    match body w with
    | (outcome, w1) =>
        match cleanup w1 with
        | (Normal _, w2) => (outcome, w2)
        | (Throw e, w2) => (Throw e, w2)
        end
    end.

(** [loadInitialData()]; [api] is how [Promise.all] of the five requests
    of the API service ends: resolved with the data, or rejected. *)
Definition loadInitialData (beh : behaviour) (api : InitialData + error) : Eff unit :=
  StateManager.setLoading beh true ;;
  try_finally
    (match api with
     | inl data =>
         StateManager.updateCurrentStatus beh (api_status data) ;;
         StateManager.updateHistoricalData beh (api_historical data) ;;
         StateManager.updateForecasts beh (api_forecasts data) ;;
         StateManager.updateRecommendations beh (api_recommendations data) ;;
         StateManager.updateAlerts beh (api_alerts data) ;;
         StateManager.clearError beh
     | inr e => throw e
     end)
    (StateManager.setLoading beh false).

(** The data manager in its environment: the world, the field
    [updateInterval] ([None] for [null]), the interval timers that are
    armed and the identifier the next timer will get. *)
Record Runtime : Type := {
  world : World;
  updateInterval : option positive;
  armed : gset positive;
  next_timer : positive
}.

(** [setInterval(callback, delay)]: arms a timer under a new identifier and
    returns the identifier. *)
Definition setInterval (r : Runtime) : positive * Runtime :=
  (next_timer r,
   {| world := world r;
      updateInterval := updateInterval r;
      armed := {[next_timer r]} ∪ armed r;
      next_timer := (next_timer r + 1)%positive |}).

(** [clearInterval(id)]. *)
Definition clearInterval (id : positive) (r : Runtime) : Runtime :=
  {| world := world r;
     updateInterval := updateInterval r;
     armed := armed r ∖ {[id]};
     next_timer := next_timer r |}.

Definition set_updateInterval (field : option positive) (r : Runtime) : Runtime :=
  {| world := world r;
     updateInterval := field;
     armed := armed r;
     next_timer := next_timer r |}.

Definition set_world (w : World) (r : Runtime) : Runtime :=
  {| world := w;
     updateInterval := updateInterval r;
     armed := armed r;
     next_timer := next_timer r |}.

(** [startRealTimeUpdates()]. *)
Definition startRealTimeUpdates (r : Runtime) : Runtime :=
  let r1 :=
    match updateInterval r with
    | Some id => clearInterval id r
    | None => r
    end in
  let (id, r2) := setInterval r1 in
  set_updateInterval (Some id) r2.

(** [stopRealTimeUpdates()]. *)
Definition stopRealTimeUpdates (r : Runtime) : Runtime :=
  match updateInterval r with
  | Some id => set_updateInterval None (clearInterval id r)
  | None => r
  end.

(** [destroy()]. *)
Definition destroy (r : Runtime) : Runtime := stopRealTimeUpdates r.

(** [init()]: how the promise ends ([Throw] when it is rejected), and the
    runtime then. *)
Definition init (beh : behaviour) (api : InitialData + error) (r : Runtime)
    : completion unit * Runtime :=
  match loadInitialData beh api (world r) with
  | (Normal _, w1) => (Normal tt, startRealTimeUpdates (set_world w1 r))
  | (Throw _, w1) =>
      match StateManager.setError beh "Failed to load initial data" w1 with
      | (outcome, w2) => (outcome, set_world w2 r)
      end
  end.

End DataManager.

(** ** authService.js *)

Module AuthService.

(** [sessionStorage.setItem(key, text)] and
    [sessionStorage.removeItem(key)]. *)
Definition setItem (key text : string) : Eff unit :=
  fun w =>
    (Normal tt,
     {| stateManager := stateManager w;
        sessionStorage := <[key := text]> (sessionStorage w);
        invoked := invoked w |}).

Definition removeItem (key : string) : Eff unit :=
  fun w =>
    (Normal tt,
     {| stateManager := stateManager w;
        sessionStorage := delete key (sessionStorage w);
        invoked := invoked w |}).

(** The double-quote character of JSON. *)
Definition dquote : Ascii.ascii := Ascii.ascii_of_nat 34.

Definition quoted (s : string) : string :=
  String dquote (s +:+ String dquote EmptyString).

(** [JSON.stringify(user)] for a user whose fields need no escaping. *)
Definition JSON_stringify (user : User) : string :=
  "{" +:+ quoted "name" +:+ ":" +:+ quoted (name user) +:+ ","
      +:+ quoted "username" +:+ ":" +:+ quoted (username user) +:+ "}".

(** How the promise returned by [login] ends: resolved with the user,
    rejected with an [Error], or never settled because the timer
    callback raised before reaching [resolve]. *)
Inductive settlement : Type :=
| Resolved (user : User)
| Rejected (e : error)
| Unsettled (uncaught : error).

(** [login(username, password)]: the body run by the timer. *)
Definition login (beh : behaviour) (username password : string)
    : World -> settlement * World :=
  fun w =>
    if (String.eqb username "admin" && String.eqb password "password")%bool
    then
      let user := {| name := "Admin User"; username := "admin" |} in
      match (setItem "authUser" (JSON_stringify user) ;;
             StateManager.loginUser beh user) w with
      | (Normal _, w') => (Resolved user, w')
      | (Throw e, w') => (Unsettled e, w')
      end
    else (Rejected "Invalid credentials. Try admin/password.", w).

(** [logout()]. *)
Definition logout (beh : behaviour) : Eff unit :=
  removeItem "authUser" ;; StateManager.logoutUser beh.

End AuthService.

(** ** chartManager.js *)

Module ChartManager.

(** The colours of [CHART_COLORS] used for the battery bars. *)
Definition battery_charging : string := "#5D878F".
Definition battery_discharging : string := "#DB4545".

(** [calculateBatteryPower(data)]:
    [data.map((d, i, arr) => i === 0 ? 0 : (d.battery - arr[i - 1].battery) * 16)]. *)
Definition calculateBatteryPower (data : list HistoryPoint) : list Q :=
  imap (fun i d =>
          match i with
          | O => 0
          | S j =>
              match data !! j with
              | Some previous => (battery d - battery previous) * 16
              | None => 0
              end
          end) data.

(** The bar colours computed from the battery power data:
    [v >= 0 ? battery_charging : battery_discharging]. *)
Definition barColours (batteryPowerData : list Q) : list string :=
  map (fun v => if Qle_bool 0 v then battery_charging else battery_discharging)
      batteryPowerData.




(** [setupStateSubscriptions()]: the two callbacks are new function
    objects, [onHistorical] and [onForecasts]; the result is the new
    content of [this.unsubscribers], pushed after the [unsubscribers] held
    so far. *)
Definition setupStateSubscriptions
    (onHistorical onForecasts : callback)
    (unsubscribers : list StateManager.Unsubscribe)
    : Eff (list StateManager.Unsubscribe) :=
  bind (StateManager.subscribe "historicalData" onHistorical) (fun unsubHistorical =>
  bind (StateManager.subscribe "forecasts" onForecasts) (fun unsubForecasts =>
  ret (unsubscribers ++ [unsubHistorical; unsubForecasts]))).

(** [this.unsubscribers.forEach(unsub => unsub())]. *)
Fixpoint call_all (unsubscribers : list StateManager.Unsubscribe) : Eff unit :=
  match unsubscribers with
  | [] => ret tt
  | unsub :: rest => StateManager.unsubscribe unsub ;; call_all rest
  end.

(** What [destroy()] does to the store and to [this.unsubscribers]: every
    unsubscribe function is called and the list is emptied. *)
Definition destroy (unsubscribers : list StateManager.Unsubscribe)
    : Eff (list StateManager.Unsubscribe) :=
  call_all unsubscribers ;; ret [].

End ChartManager.

(** ** settingsManager.js and the theme switcher of the UI controller *)

Module SettingsManager.

(** What the settings manager reads and writes: its [theme] field, the
    local storage, the colour scheme the operating system prefers and the
    [data-color-scheme] attribute of the document. *)
Record Browser : Type := {
  theme : string;
  localStorage : gmap string string;
  prefers_dark : bool;
  data_color_scheme : option string
}.

(** [getTheme()]: [localStorage.getItem('theme') || 'system']. *)
Definition getTheme (b : Browser) : string :=
  match localStorage b !! "theme" with
  | Some EmptyString | None => "system"
  | Some stored => stored
  end.

(** [applyTheme()]. *)
Definition applyTheme (b : Browser) : Browser :=
  let currentTheme := getTheme b in
  let themeToApply :=
    if String.eqb currentTheme "system"
    then (if prefers_dark b then "dark" else "light")
    else currentTheme in
  {| theme := theme b;
     localStorage := localStorage b;
     prefers_dark := prefers_dark b;
     data_color_scheme := Some themeToApply |}.

(** [setTheme(theme)]. *)
Definition setTheme (newTheme : string) (b : Browser) : Browser :=
  applyTheme
    {| theme := newTheme;
       localStorage := <["theme" := newTheme]> (localStorage b);
       prefers_dark := prefers_dark b;
       data_color_scheme := data_color_scheme b |}.

(** The first two statements of [init()]. *)
Definition init (b : Browser) : Browser :=
  applyTheme
    {| theme := getTheme b;
       localStorage := localStorage b;
       prefers_dark := prefers_dark b;
       data_color_scheme := data_color_scheme b |}.

(** The listener [init()] registers for changes of the preference of the
    operating system, run after the preference has become [dark]. *)
Definition on_preference_change (dark : bool) (b : Browser) : Browser :=
  let changed :=
    {| theme := theme b;
       localStorage := localStorage b;
       prefers_dark := dark;
       data_color_scheme := data_color_scheme b |} in
  if String.eqb (getTheme changed) "system" then applyTheme changed else changed.

(** The click listener of the theme switcher
    ([UIController.setupHeaderControls]). *)
Definition switchTheme (b : Browser) : Browser :=
  let currentTheme := getTheme b in
  let newTheme :=
    if (String.eqb currentTheme "light" || String.eqb currentTheme "system")%bool
    then "dark" else "light" in
  setTheme newTheme b.

End SettingsManager.

(** ** The first version of the application (class
       [EnergyManagementSystem]) *)

Module EnergyManagementSystem.
Import Utils.

(** [Math.round(x)]: the nearest integer, the larger one on a tie. *)
Definition Math_round (x : Q) : Z := Qfloor (x + (1 # 2)).

(** [Math.round(x * 10) / 10]. *)
Definition round_tenth (x : Q) : Q := inject_Z (Math_round (x * 10)) / 10.

(** [simulateRealTimeData()]: the status object after the method has
    updated it in place. *)
Definition simulateRealTimeData (rand : nat -> Q) (status : Status) : Status :=
  let solar := solar_generation status + (rand 0%nat - (1 # 2)) * 10 in
  let wind := wind_generation status + (rand 1%nat - (1 # 2)) * 3 in
  let load := campus_load status + (rand 2%nat - (1 # 2)) * 8 in
  let soc := battery_soc status + (rand 3%nat - (1 # 2)) * (1 # 2) in
  let solar := Math_max 0 (Math_min 500 solar) in
  let wind := Math_max 0 (Math_min 100 wind) in
  let load := Math_max 200 (Math_min 500 load) in
  let soc := Math_max 20 (Math_min 100 soc) in
  let total := solar + wind in
  let grid := load - total - battery_power status in
  let temperature' :=
    temperature (weather status) + (rand 4%nat - (1 # 2)) * (1 # 2) in
  let wind_speed' :=
    wind_speed (weather status) + (rand 5%nat - (1 # 2)) * (3 # 10) in
  let irradiance' :=
    irradiance (weather status) + (rand 6%nat - (1 # 2)) * 20 in
  let temperature' := Math_max 25 (Math_min 40 temperature') in
  let wind_speed' := Math_max 0 (Math_min 15 wind_speed') in
  let irradiance' := Math_max 0 (Math_min 1000 irradiance') in
  {| timestamp := timestamp status;
     solar_generation := round_tenth solar;
     wind_generation := round_tenth wind;
     total_generation := round_tenth total;
     campus_load := round_tenth load;
     battery_soc := round_tenth soc;
     battery_power := round_tenth (battery_power status);
     grid_power := round_tenth grid;
     weather := {| temperature := round_tenth temperature';
                   wind_speed := round_tenth wind_speed';
                   irradiance := round_tenth irradiance';
                   cloud_cover := round_tenth (cloud_cover (weather status)) |} |}.

End EnergyManagementSystem.

(** * Vocabulary of the properties *)

(** The draws of [Math.random()] lie in [0, 1). *)
Definition valid_draws (rand : nat -> Q) : Prop :=
  forall i : nat, 0 <= rand i < 1.

(** Every bounded field of a status within its configured range. *)
Definition within_bounds (cfg : Config.Config) (st : Status) : Prop :=
  let campus := Config.CAMPUS_INFO cfg in
  0 <= solar_generation st <= Config.solar_capacity campus /\
  0 <= wind_generation st <= Config.wind_capacity campus /\
  200 <= campus_load st <= Config.peak_demand campus /\
  Config.battery_low (Config.THRESHOLDS cfg) <= battery_soc st <= 100 /\
  25 <= temperature (weather st) <= 40 /\
  0 <= wind_speed (weather st) <= 15 /\
  0 <= irradiance (weather st) <= 1000.

(** A snapshot that satisfies the invariants of the data model. *)
Definition valid_status (cfg : Config.Config) (st : Status) : Prop :=
  total_generation st == solar_generation st + wind_generation st /\
  grid_power st == campus_load st - total_generation st - battery_power st /\
  within_bounds cfg st.

(** The configured bounds are ordered. *)
Definition ordered_bounds (cfg : Config.Config) : Prop :=
  let campus := Config.CAMPUS_INFO cfg in
  0 <= Config.solar_capacity campus /\
  0 <= Config.wind_capacity campus /\
  200 <= Config.peak_demand campus /\
  Config.battery_low (Config.THRESHOLDS cfg) <= 100.

(** A number with at most one decimal. *)
Definition one_decimal (x : Q) : Prop :=
  exists n : Z, x == inject_Z n * (1 # 10).

(** The configured bounds have at most one decimal. *)
Definition one_decimal_bounds (cfg : Config.Config) : Prop :=
  let campus := Config.CAMPUS_INFO cfg in
  one_decimal (Config.solar_capacity campus) /\
  one_decimal (Config.wind_capacity campus) /\
  one_decimal (Config.peak_demand campus) /\
  one_decimal (Config.battery_low (Config.THRESHOLDS cfg)).

(** A snapshot in the afternoon, all of its numbers with one decimal. *)
Definition afternoon : Status := {|
  timestamp := "2025-09-27T16:33:00+05:30";
  solar_generation := 771 # 2;
  wind_generation := 47 # 2;
  total_generation := 409;
  campus_load := 685 # 2;
  battery_soc := 157 # 2;
  battery_power := 25;
  grid_power := - (183 # 2);
  weather := {| temperature := 65 # 2;
                wind_speed := 4;
                irradiance := 785;
                cloud_cover := 15 |}
|}.

(** Draws a little above one half for solar, wind and load, one half (no
    change) for the other fields. *)
Definition slight_rise (i : nat) : Q :=
  match i with
  | 0%nat => 65 # 128
  | 1%nat => 133 # 256
  | 2%nat => 65 # 128
  | _ => 1 # 2
  end.

(** The rule an alert reports, read off the text that opens its message. *)
Inductive rule : Type :=
| BatteryLow
| LoadHigh.

Definition alert_rule (a : DataManager.Alert) : option rule :=
  match DataManager.message a with
  | DataManager.Text s :: _ =>
      if String.eqb s "Battery SOC below " then Some BatteryLow
      else if String.eqb s "Campus load exceeding " then Some LoadHigh
      else None
  | _ => None
  end.

Definition reports (r : rule) (a : DataManager.Alert) : bool :=
  match alert_rule a, r with
  | Some BatteryLow, BatteryLow => true
  | Some LoadHigh, LoadHigh => true
  | _, _ => false
  end.

(** The number of alerts of a list that report a rule. *)
Definition count_rule (r : rule) (alerts : list DataManager.Alert) : nat :=
  length (List.filter (reports r) alerts).

(** A snapshot with another battery state of charge. *)
Definition with_battery_soc (soc : Q) (st : Status) : Status :=
  {| timestamp := timestamp st;
     solar_generation := solar_generation st;
     wind_generation := wind_generation st;
     total_generation := total_generation st;
     campus_load := campus_load st;
     battery_soc := soc;
     battery_power := battery_power st;
     grid_power := grid_power st;
     weather := weather st |}.

(** Whether calling a callback with a value raises. *)
Definition raises (beh : behaviour) (v : value) (cb : callback) : bool :=
  match beh cb v with
  | Some _ => true
  | None => false
  end.

(** The callbacks at the head of a list that return when called. *)
Fixpoint quiet_prefix (beh : behaviour) (v : value) (cbs : list callback)
    : list callback :=
  match cbs with
  | [] => []
  | cb :: rest => if raises beh v cb then [] else cb :: quiet_prefix beh v rest
  end.

(** The callbacks of a list up to and including the first that raises; the
    whole list when none raises. *)
Definition up_to_first_raise (beh : behaviour) (v : value) (cbs : list callback)
    : list callback :=
  take (S (length (quiet_prefix beh v cbs))) cbs.

(** The subscribers of a key, in subscription order. *)
Definition subscribers (key : string) (w : World) : list callback :=
  default [] (StateManager.listeners_of key w).

(** A behaviour under which no callback raises, and one under which
    callback 1 raises. *)
Definition all_return : behaviour := fun _ _ => None.

Definition first_raises : behaviour :=
  fun cb _ => if Nat.eqb cb 1 then Some "TypeError: element is null" else None.

(** The start-up world after callbacks 1, 2 and 3 have subscribed to
    [currentStatus], in that order, and callback 4 to [alerts]. *)
Definition three_subscribers : World :=
  after (StateManager.subscribe "alerts" 4%nat)
    (after (StateManager.subscribe "currentStatus" 3%nat)
      (after (StateManager.subscribe "currentStatus" 2%nat)
        (after (StateManager.subscribe "currentStatus" 1%nat) initialWorld))).




(** The history array a tick would read: [get('historicalData') || []]. *)
Definition history (w : World) : option (list value) :=
  let stored := StateManager.get "historicalData" w in
  match (if truthy stored then stored else VArray []) with
  | VArray items => Some items
  | _ => None
  end.

(** The world after a sequence of calls of [addHistoricalDataPoint], each
    with its clock text and status. *)
Definition record_points (cfg : Config.Config) (beh : behaviour)
    (inputs : list (string * Status)) (w : World) : World :=
  fold_left
    (fun w input =>
       after (DataManager.addHistoricalDataPoint cfg beh (fst input) (snd input)) w)
    inputs w.

(** The points a sequence of calls inserts, in insertion order. *)
Definition inserted (inputs : list (string * Status)) : list value :=
  map (fun input => VPoint (DataManager.newPoint (fst input) (snd input))) inputs.

(** A configuration whose tick interval is eight hours: three ticks in
    the retention window. *)
Definition eight_hours : Config.Config := {|
  Config.UPDATE_INTERVAL := 28800000;
  Config.CAMPUS_INFO := Config.CAMPUS_INFO Config.CONFIG;
  Config.THRESHOLDS := Config.THRESHOLDS Config.CONFIG;
  Config.SIMULATION := Config.SIMULATION Config.CONFIG
|}.

(** Four readings A, B, C and D, a minute apart. *)
Definition reading_A : string * Status := ("16:33", afternoon).
Definition reading_B : string * Status := ("16:34", with_battery_soc (392 # 5) afternoon).
Definition reading_C : string * Status := ("16:35", with_battery_soc (393 # 5) afternoon).
Definition reading_D : string * Status := ("16:36", with_battery_soc (394 # 5) afternoon).

(** The user object of the accepted credentials. *)
Definition admin_user : User := {| name := "Admin User"; username := "admin" |}.

(** The start-up world after callback 1 has subscribed to
    [isAuthenticated]. *)
Definition header_subscriber : World :=
  after (StateManager.subscribe "isAuthenticated" 1%nat) initialWorld.

(** The world in which [login] calls [loginUser]: the user persisted. *)
Definition persisted (w : World) : World :=
  after (AuthService.setItem "authUser" (AuthService.JSON_stringify admin_user)) w.

(** The grid interaction seen from the other side of the meter. *)
Definition mirrored (interaction : string) : string :=
  if String.eqb interaction "exporting" then "importing"
  else if String.eqb interaction "importing" then "exporting"
  else interaction.

(** A snapshot with another grid power. *)
Definition with_grid_power (grid : Q) (st : Status) : Status :=
  {| timestamp := timestamp st;
     solar_generation := solar_generation st;
     wind_generation := wind_generation st;
     total_generation := total_generation st;
     campus_load := campus_load st;
     battery_soc := battery_soc st;
     battery_power := battery_power st;
     grid_power := grid;
     weather := weather st |}.

(** The text of the day [i] days before 27 September. *)
Definition day_label (i : nat) : string :=
  match i with
  | 0%nat => "27 Sept"
  | 1%nat => "26 Sept"
  | _ => "earlier"
  end.

(** A browser that holds no theme, in which the operating system prefers
    the light scheme. *)
Definition fresh_browser : SettingsManager.Browser := {|
  SettingsManager.theme := "system";
  SettingsManager.localStorage := ∅;
  SettingsManager.prefers_dark := false;
  SettingsManager.data_color_scheme := None
|}.





(** A call that starts or stops the updates of the data manager. *)
Inductive lifecycle_call : Type :=
| CallStart
| CallStop
| CallDestroy.

Definition lifecycle_step (r : DataManager.Runtime) (c : lifecycle_call)
    : DataManager.Runtime :=
  match c with
  | CallStart => DataManager.startRealTimeUpdates r
  | CallStop => DataManager.stopRealTimeUpdates r
  | CallDestroy => DataManager.destroy r
  end.

(** The runtime after a sequence of such calls. *)
Definition lifecycle (calls : list lifecycle_call) (r : DataManager.Runtime)
    : DataManager.Runtime :=
  fold_left lifecycle_step calls r.

(** The timer the data manager holds, as a set. *)
Definition own_timer (r : DataManager.Runtime) : gset positive :=
  match DataManager.updateInterval r with
  | Some id => {[id]}
  | None => ∅
  end.

(** The timer the data manager holds is armed, and the identifiers in use
    are below the next one. *)
Definition timers_consistent (r : DataManager.Runtime) : Prop :=
  (forall id, id ∈ DataManager.armed r -> (id < DataManager.next_timer r)%positive) /\
  (forall id, DataManager.updateInterval r = Some id -> id ∈ DataManager.armed r).

(** The runtime when the page is loaded: the start-up world and one timer
    of another component. *)
Definition page_loaded : DataManager.Runtime := {|
  DataManager.world := three_subscribers;
  DataManager.updateInterval := None;
  DataManager.armed := {[1%positive]};
  DataManager.next_timer := 2%positive
|}.

(** What the API service answers in the afternoon. *)
Definition afternoon_data : DataManager.InitialData := {|
  DataManager.api_status := afternoon;
  DataManager.api_historical := VArray [];
  DataManager.api_forecasts := VArray [];
  DataManager.api_recommendations := VArray [];
  DataManager.api_alerts := VArray []
|}.

(** * Properties *)

(** ** Rounding to one decimal *)

Section Rounding.
Import Utils DataManager.

Lemma floor_lower (k : Z) (y : Q) : inject_Z k <= y -> (k <= Qfloor y)%Z.
Proof.
  intros Hk. rewrite <- (Qfloor_Z k). now apply Qfloor_resp_le.
Qed.

Lemma round1_large (x : Q) : 10 ^ 21 <= Qabs x -> round 1 x = x.
Proof.
  intros Hx. unfold round, formatNumber, toFixed.
  destruct (Qle_bool (inject_Z (10 ^ 21)) (Qabs x)) eqn:E; [reflexivity|].
  exfalso. apply Bool.not_true_iff_false in E. apply E.
  apply Qle_bool_iff. exact Hx.
Qed.

Lemma round1_small (x : Q) :
  Qabs x < 10 ^ 21 -> round 1 x == inject_Z (toFixed_integer x 1) * (1 # 10).
Proof.
  intros Hx. unfold round, formatNumber, toFixed.
  destruct (Qle_bool (inject_Z (10 ^ 21)) (Qabs x)) eqn:E.
  - apply Qle_bool_iff in E. exfalso. apply (Qlt_not_le _ _ Hx). exact E.
  - reflexivity.
Qed.

(** The printed integer is within one half of ten times the number. *)
Lemma toFixed_integer_close (x : Q) :
  x * 10 - (1 # 2) <= inject_Z (toFixed_integer x 1) <= x * 10 + (1 # 2).
Proof.
  unfold toFixed_integer. change (inject_Z (10 ^ Z.of_nat 1)) with 10.
  destruct (Qle_bool 0 x) eqn:S.
  - apply Qle_bool_iff in S.
    rewrite (Qfloor_comp (Qabs x * 10 + (1 # 2)) (x * 10 + (1 # 2)))
      by (rewrite (Qabs_pos x S); reflexivity).
    pose proof (Qfloor_le (x * 10 + (1 # 2))) as Hl.
    pose proof (Qlt_floor (x * 10 + (1 # 2))) as Hu.
    rewrite inject_Z_plus in Hu. change (inject_Z 1) with 1 in Hu. lra.
  - assert (Hneg : x <= 0).
    { apply Qnot_lt_le. intros Hp. apply Qlt_le_weak in Hp.
      apply Qle_bool_iff in Hp. congruence. }
    rewrite (Qfloor_comp (Qabs x * 10 + (1 # 2)) (- x * 10 + (1 # 2)))
      by (rewrite (Qabs_neg x Hneg); reflexivity).
    pose proof (Qfloor_le (- x * 10 + (1 # 2))) as Hl.
    pose proof (Qlt_floor (- x * 10 + (1 # 2))) as Hu.
    rewrite inject_Z_plus in Hu. change (inject_Z 1) with 1 in Hu.
    rewrite inject_Z_opp. lra.
Qed.

Lemma Qabs_dec (x : Q) : {Qabs x < 10 ^ 21} + {10 ^ 21 <= Qabs x}.
Proof. apply Qlt_le_dec. Qed.

(** Rounding moves a number by at most one twentieth. *)
Lemma round1_error (x : Q) :
  x - (1 # 20) <= round 1 x <= x + (1 # 20).
Proof.
  destruct (Qabs_dec x) as [Hs | Hl].
  - rewrite (round1_small x Hs).
    pose proof (toFixed_integer_close x). lra.
  - rewrite (round1_large x Hl). lra.
Qed.

(** A number with one decimal is left as it is. *)
Lemma round1_tenth (n : Z) : round 1 (inject_Z n * (1 # 10)) == inject_Z n * (1 # 10).
Proof.
  set (x := inject_Z n * (1 # 10)).
  destruct (Qabs_dec x) as [Hs | Hl].
  - rewrite (round1_small x Hs).
    pose proof (toFixed_integer_close x) as [Hlo Hhi]. subst x.
    assert (E : toFixed_integer (inject_Z n * (1 # 10)) 1 = n).
    { apply Z.le_antisymm.
      - apply Z.lt_succ_r. rewrite Zlt_Qlt. unfold Z.succ.
        rewrite inject_Z_plus. change (inject_Z 1) with 1. lra.
      - apply Z.lt_pred_le. rewrite Zlt_Qlt. unfold Z.pred.
        rewrite inject_Z_plus. change (inject_Z (-1)) with (-1). lra. }
    rewrite E. reflexivity.
  - rewrite (round1_large x Hl). reflexivity.
Qed.

End Rounding.

(** ** The generator *)

Section Generator.
Import Utils Config DataManager.

Lemma Qle_bool_false (a b : Q) : Qle_bool a b = false -> b < a.
Proof.
  intros E. apply Qnot_le_lt. intros Hle.
  apply Qle_bool_iff in Hle. congruence.
Qed.

Lemma clamp_lower (v lo hi : Q) : lo <= clamp v lo hi.
Proof.
  unfold clamp, Math_max.
  destruct (Qle_bool lo (Math_min hi v)) eqn:E.
  - now apply Qle_bool_iff in E.
  - apply Qle_refl.
Qed.

Lemma clamp_upper (v lo hi : Q) : lo <= hi -> clamp v lo hi <= hi.
Proof.
  intros Hord. unfold clamp, Math_max, Math_min.
  destruct (Qle_bool hi v) eqn:E1.
  - destruct (Qle_bool lo hi); [apply Qle_refl | exact Hord].
  - apply Qle_bool_false in E1.
    destruct (Qle_bool lo v); [now apply Qlt_le_weak | exact Hord].
Qed.

(** Rounding keeps a number between bounds that have one decimal. *)
Lemma round1_between_tenths (lo hi x : Q) :
  one_decimal lo -> one_decimal hi ->
  lo <= x <= hi -> lo <= round 1 x <= hi.
Proof.
  intros [L HL] [H HH] [Hlo Hhi]. destruct (Qabs_dec x) as [Hs | Hl].
  - rewrite (round1_small x Hs).
    pose proof (toFixed_integer_close x) as [Hn1 Hn2].
    assert (H1 : (L <= toFixed_integer x 1)%Z).
    { apply Z.lt_pred_le. rewrite Zlt_Qlt. unfold Z.pred.
      rewrite inject_Z_plus. change (inject_Z (-1)) with (-1). lra. }
    assert (H2 : (toFixed_integer x 1 <= H)%Z).
    { apply Z.lt_succ_r. rewrite Zlt_Qlt. unfold Z.succ.
      rewrite inject_Z_plus. change (inject_Z 1) with 1. lra. }
    rewrite Zle_Qle in H1, H2. lra.
  - rewrite (round1_large x Hl). split; assumption.
Qed.

Lemma one_decimal_Z (z : Z) : one_decimal (inject_Z z).
Proof.
  exists (10 * z)%Z. rewrite inject_Z_mult. change (inject_Z 10) with 10. lra.
Qed.

(** The bounds hold for the snapshot before the rounding, for every
    configuration with ordered bounds. *)
Lemma updated_within_bounds (cfg : Config) (rand : nat -> Q) (now : string)
    (st : Status) :
  ordered_bounds cfg ->
  within_bounds cfg (simulate_updated cfg rand now st).
Proof.
  intros (Hs & Hw & Hp & Hb).
  unfold within_bounds, simulate_updated; cbn.
  repeat split; try apply clamp_lower; apply clamp_upper;
    try assumption; lra.
Qed.

(** Rounding a snapshot that is within bounds keeps it within bounds,
    when the configured bounds have one decimal. *)
Lemma rounded_within_bounds (cfg : Config) (st : Status) :
  one_decimal_bounds cfg ->
  within_bounds cfg st ->
  within_bounds cfg (roundNumericValues st 1).
Proof.
  intros (Ds & Dw & Dp & Db) (B1 & B2 & B3 & B4 & B5 & B6 & B7).
  unfold within_bounds, roundNumericValues; cbn.
  repeat match goal with |- (_ <= _ <= _) /\ _ => split end;
    (apply round1_between_tenths;
     [ first [assumption | apply (one_decimal_Z 0) | apply (one_decimal_Z 200)
             | apply (one_decimal_Z 25) ]
     | first [assumption | apply (one_decimal_Z 100) | apply (one_decimal_Z 40)
             | apply (one_decimal_Z 15) | apply (one_decimal_Z 1000) ]
     | assumption ]).
Qed.

Lemma CONFIG_ordered_bounds : ordered_bounds CONFIG.
Proof. unfold ordered_bounds; cbn. repeat split; lra. Qed.

Lemma CONFIG_one_decimal_bounds : one_decimal_bounds CONFIG.
Proof.
  unfold one_decimal_bounds; cbn.
  repeat split;
    [apply (one_decimal_Z 500) | apply (one_decimal_Z 100)
    | apply (one_decimal_Z 450) | apply (one_decimal_Z 20)].
Qed.

End Generator.

Section GeneratorClaims.
Import Utils Config DataManager.

Lemma toFixed_integer_comp (x y : Q) (decimals : nat) :
  x == y -> toFixed_integer x decimals = toFixed_integer y decimals.
Proof.
  intros E. unfold toFixed_integer.
  rewrite (Qleb_comp 0 0 (Qeq_refl 0) x y E).
  rewrite (Qfloor_comp
             (Qabs x * inject_Z (10 ^ Z.of_nat decimals) + (1 # 2))
             (Qabs y * inject_Z (10 ^ Z.of_nat decimals) + (1 # 2)))
    by (rewrite E; reflexivity).
  reflexivity.
Qed.

(** Rounding respects the equality of rationals. *)
Lemma round1_comp (x y : Q) : x == y -> round 1 x == round 1 y.
Proof.
  intros E. destruct (Qabs_dec x) as [Hs | Hl].
  - assert (Hy : Qabs y < 10 ^ 21) by (rewrite <- E; exact Hs).
    rewrite (round1_small x Hs), (round1_small y Hy).
    rewrite (toFixed_integer_comp x y 1 E). reflexivity.
  - assert (Hy : 10 ^ 21 <= Qabs y) by (rewrite <- E; exact Hl).
    rewrite (round1_large x Hl), (round1_large y Hy). exact E.
Qed.

(** Rounding twice is rounding once. *)
Lemma round1_idempotent (x : Q) : round 1 (round 1 x) == round 1 x.
Proof.
  destruct (Qabs_dec x) as [Hs | Hl].
  - rewrite (round1_comp _ _ (round1_small x Hs)).
    rewrite (round1_small x Hs). apply round1_tenth.
  - rewrite (round1_large x Hl). rewrite (round1_large x Hl). reflexivity.
Qed.

(** C2. For every previous snapshot and every sequence of draws, each
    bounded field of the generator's output lies within its configured
    range: solar in [0, 500], wind in [0, 100], load in [200, 450],
    battery SOC in [20, 100], temperature in [25, 40], wind speed in
    [0, 15], irradiance in [0, 1000]; both before and after the
    rounding to one decimal. *)
Theorem generator_output_within_bounds
    (rand : nat -> Q) (now : string) (st : Status) :
  within_bounds CONFIG (simulate_updated CONFIG rand now st) /\
  within_bounds CONFIG (simulateRealTimeData CONFIG rand now st).
Proof.
  assert (B : within_bounds CONFIG (simulate_updated CONFIG rand now st))
    by (apply updated_within_bounds, CONFIG_ordered_bounds).
  split; [exact B |].
  unfold simulateRealTimeData.
  apply rounded_within_bounds; [apply CONFIG_one_decimal_bounds | exact B].
Qed.

End GeneratorClaims.

Section DerivedFields.
Import Utils Config DataManager.

Lemma small_of_between (x t : Q) : 0 <= x -> x <= t -> Qabs t < 10 ^ 21 -> Qabs x < 10 ^ 21.
Proof.
  intros H0 Hx Ht. rewrite (Qabs_pos x H0).
  assert (Et : Qabs t == t) by (apply Qabs_pos; lra).
  rewrite Et in Ht. lra.
Qed.

(** The separately rounded parts of a sum of two non-negative numbers add
    up to the rounded sum, or miss it by one tenth. *)
Lemma round1_sum (s w : Q) :
  0 <= s -> 0 <= w ->
  Qabs (round 1 (s + w) - (round 1 s + round 1 w)) <= 1 # 10.
Proof.
  intros Hs Hw. apply Qabs_Qle_condition.
  destruct (Qabs_dec (s + w)) as [Ht | Ht].
  - assert (Hss : Qabs s < 10 ^ 21) by (apply (small_of_between s (s + w)); lra).
    assert (Hws : Qabs w < 10 ^ 21) by (apply (small_of_between w (s + w)); lra).
    rewrite (round1_small _ Ht), (round1_small _ Hss), (round1_small _ Hws).
    pose proof (toFixed_integer_close (s + w)) as [T1 T2].
    pose proof (toFixed_integer_close s) as [S1 S2].
    pose proof (toFixed_integer_close w) as [W1 W2].
    set (nt := toFixed_integer (s + w) 1) in *.
    set (ns := toFixed_integer s 1) in *.
    set (nw := toFixed_integer w 1) in *.
    assert (Hup : (nt <= ns + nw + 1)%Z).
    { apply Z.lt_succ_r. rewrite Zlt_Qlt. unfold Z.succ.
      rewrite !inject_Z_plus. change (inject_Z 1) with 1. lra. }
    assert (Hdn : (ns + nw <= nt + 1)%Z).
    { apply Z.lt_succ_r. rewrite Zlt_Qlt. unfold Z.succ.
      rewrite !inject_Z_plus. change (inject_Z 1) with 1. lra. }
    rewrite Zle_Qle in Hup, Hdn. rewrite !inject_Z_plus in Hup, Hdn.
    change (inject_Z 1) with 1 in Hup, Hdn. lra.
  - rewrite (round1_large _ Ht).
    pose proof (round1_error s). pose proof (round1_error w). lra.
Qed.

(** A difference of three numbers rounded as a whole, against the
    difference of the three roundings: one fifth apart at most. *)
Lemma round1_difference (l t b : Q) :
  Qabs (round 1 (l - t - b) - (round 1 l - round 1 t - round 1 b)) <= 1 # 5.
Proof.
  apply Qabs_Qle_condition.
  pose proof (round1_error l). pose proof (round1_error t).
  pose proof (round1_error b). pose proof (round1_error (l - t - b)).
  lra.
Qed.

(** C1, as the code has it. The total is derived from the perturbed
    solar and wind values before the rounding, where it equals their sum
    exactly; every published field is the one-decimal rounding of that
    snapshot's field, so the published total is the rounded sum, and it
    differs from the sum of the published solar and wind values by at
    most one tenth. *)
Theorem total_generation_derived_then_rounded
    (cfg : Config) (rand : nat -> Q) (now : string) (st : Status) :
  let updated := simulate_updated cfg rand now st in
  let out := simulateRealTimeData cfg rand now st in
  total_generation updated == solar_generation updated + wind_generation updated /\
  solar_generation out = round 1 (solar_generation updated) /\
  wind_generation out = round 1 (wind_generation updated) /\
  total_generation out
    = round 1 (solar_generation updated + wind_generation updated) /\
  Qabs (total_generation out - (solar_generation out + wind_generation out))
    <= 1 # 10.
Proof.
  cbn zeta. do 4 (split; [reflexivity |]).
  apply round1_sum; apply clamp_lower.
Qed.

(** C1 fails as stated: from the afternoon snapshot, with draws slightly
    above one half, the perturbed solar and wind values are 385.578125
    and 23.55859375 and their sum is 409.13671875 (all of them binary
    fractions, so that double-precision arithmetic computes them without
    error); the published total is 409.1 while the published solar and
    wind values are 385.6 and 23.6. *)
Lemma total_generation_not_sum_after_rounding :
  valid_status CONFIG afternoon /\
  valid_draws slight_rise /\
  let out := simulateRealTimeData CONFIG slight_rise "2025-09-27T11:03:05.000Z" afternoon in
  total_generation out == 4091 # 10 /\
  solar_generation out == 3856 # 10 /\
  wind_generation out == 236 # 10 /\
  ~ total_generation out == solar_generation out + wind_generation out.
Proof.
  split; [| split].
  - unfold valid_status, within_bounds; cbn. repeat split; lra.
  - intros [| [| [| i]]]; cbn; split; lra.
  - cbn zeta. repeat split; try (vm_compute; reflexivity).
    vm_compute. discriminate.
Qed.

(** C3, as the code has it. Before the rounding the grid power is the
    perturbed load minus the derived total minus the battery power,
    which is the previous snapshot's; every published field is the
    one-decimal rounding of that snapshot's field, so the identity holds
    on the published snapshot up to the four roundings, one fifth at
    most. *)
Theorem grid_power_derived_then_rounded
    (cfg : Config) (rand : nat -> Q) (now : string) (st : Status) :
  let updated := simulate_updated cfg rand now st in
  let out := simulateRealTimeData cfg rand now st in
  battery_power updated = battery_power st /\
  grid_power updated
    == campus_load updated - total_generation updated - battery_power updated /\
  campus_load updated
    = clamp (campus_load st + (rand 2%nat - (1 # 2)) * load_variation (SIMULATION cfg))
            200 (peak_demand (CAMPUS_INFO cfg)) /\
  grid_power out
    = round 1 (campus_load updated - total_generation updated - battery_power st) /\
  Qabs (grid_power out
        - (campus_load out - total_generation out - battery_power out))
    <= 1 # 5.
Proof.
  cbn zeta. do 4 (split; [reflexivity |]).
  apply round1_difference.
Qed.

(** C3 fails as stated: from the afternoon snapshot, with draws slightly
    above one half, the perturbed load is 342.5625, the derived total
    409.13671875 and the grid power -91.57421875 (binary fractions
    again); the published grid power is -91.6 while the published load,
    total and battery power are 342.6, 409.1 and 25. *)
Lemma grid_power_not_difference_after_rounding :
  valid_status CONFIG afternoon /\
  valid_draws slight_rise /\
  let out := simulateRealTimeData CONFIG slight_rise "2025-09-27T11:03:05.000Z" afternoon in
  grid_power out == - (916 # 10) /\
  campus_load out == 3426 # 10 /\
  total_generation out == 4091 # 10 /\
  battery_power out == 25 /\
  ~ grid_power out
    == campus_load out - total_generation out - battery_power out.
Proof.
  split; [| split].
  - unfold valid_status, within_bounds; cbn. repeat split; lra.
  - intros [| [| [| i]]]; cbn; split; lra.
  - cbn zeta. repeat split; try (vm_compute; reflexivity).
    vm_compute. discriminate.
Qed.

End DerivedFields.

Section Frame.
Import Utils Config DataManager.

(** A number with one decimal is left as it is by the rounding. *)
Lemma round1_one_decimal (x : Q) : one_decimal x -> round 1 x == x.
Proof.
  intros [n Hn]. rewrite (round1_comp _ _ Hn), Hn. apply round1_tenth.
Qed.

(** C10. The generator applies no random delta to the battery power or
    to the cloud cover: in the output they are the one-decimal rounding
    of the previous snapshot's values whatever the draws and the clock,
    equal to the previous values when these have one decimal, and from
    the first output on they stay as they are.  The temperature, the
    wind speed and the irradiance are the weather fields that take a
    draw (the 5th, 6th and 7th). *)
Theorem battery_power_and_cloud_cover_not_perturbed
    (cfg : Config) (rand rand' : nat -> Q) (now now' : string) (st : Status) :
  let sim := SIMULATION cfg in
  let out := simulateRealTimeData cfg rand now st in
  let out' := simulateRealTimeData cfg rand' now' st in
  let next := simulateRealTimeData cfg rand' now' out in
  (battery_power out = round 1 (battery_power st) /\
   cloud_cover (weather out) = round 1 (cloud_cover (weather st))) /\
  ((one_decimal (battery_power st) -> battery_power out == battery_power st) /\
   (one_decimal (cloud_cover (weather st)) ->
    cloud_cover (weather out) == cloud_cover (weather st))) /\
  (battery_power out' = battery_power out /\
   cloud_cover (weather out') = cloud_cover (weather out)) /\
  (battery_power next == battery_power out /\
   cloud_cover (weather next) == cloud_cover (weather out)) /\
  temperature (weather out)
    = round 1 (clamp (temperature (weather st)
                      + (rand 4%nat - (1 # 2)) * temperature_variation sim) 25 40) /\
  wind_speed (weather out)
    = round 1 (clamp (wind_speed (weather st)
                      + (rand 5%nat - (1 # 2)) * wind_speed_variation sim) 0 15) /\
  irradiance (weather out)
    = round 1 (clamp (irradiance (weather st)
                      + (rand 6%nat - (1 # 2)) * irradiance_variation sim) 0 1000).
Proof.
  cbn zeta. split; [split; reflexivity |].
  split; [split; apply round1_one_decimal |].
  split; [split; reflexivity |].
  split; [| repeat split; reflexivity].
  split; apply round1_idempotent.
Qed.

(** From the afternoon snapshot, whose battery power is 25 and whose cloud
    cover is 15, the output has the same battery power and cloud cover. *)
Lemma battery_power_and_cloud_cover_kept :
  let out := simulateRealTimeData CONFIG slight_rise "2025-09-27T11:03:05.000Z" afternoon in
  battery_power out == 25 /\ cloud_cover (weather out) == 15.
Proof.
  pose proof (battery_power_and_cloud_cover_not_perturbed
                CONFIG slight_rise slight_rise
                "2025-09-27T11:03:05.000Z" "2025-09-27T11:03:05.000Z" afternoon)
    as (_ & (Hb & Hc) & _).
  split.
  - apply Hb. exists 250%Z. reflexivity.
  - apply Hc. exists 150%Z. reflexivity.
Defined.

End Frame.

(** ** Threshold alerts *)

Section Thresholds.
Import Config DataManager.

Lemma count_rule_app (r : rule) (l1 l2 : list Alert) :
  count_rule r (l1 ++ l2) = (count_rule r l1 + count_rule r l2)%nat.
Proof.
  unfold count_rule. rewrite List.filter_app. apply length_app.
Qed.

(** The alerts are the battery alert when the state of charge is below
    the floor, followed by the load alert when the load is above the
    ceiling. *)
Lemma checkThresholds_eq (cfg : Config) (now1 now2 : string) (st : Status) :
  checkThresholds cfg now1 now2 st
  = (if Qlt_le_dec (battery_soc st) (battery_low (THRESHOLDS cfg))
     then [battery_alert (THRESHOLDS cfg) now1] else [])
    ++ (if Qlt_le_dec (load_high (THRESHOLDS cfg)) (campus_load st)
        then [load_alert (THRESHOLDS cfg) now2] else []).
Proof.
  unfold checkThresholds.
  destruct (Qlt_le_dec (battery_soc st) (battery_low (THRESHOLDS cfg)));
    destruct (Qlt_le_dec (load_high (THRESHOLDS cfg)) (campus_load st));
    reflexivity.
Qed.

(** C9, as the code has it. Threshold evaluation has no effect on the
    store and depends on the snapshot, the thresholds and the clock only:
    each alert is stamped with the clock reading taken when it is made.
    It returns one alert per violated rule and nothing else: one battery
    alert if the state of charge is below the floor, none otherwise; one
    load alert if the load is above the ceiling, none otherwise.  With
    the floor at 20, a state of charge of 18.5 gives one battery alert
    and a state of charge of 25 gives none. *)
Theorem checkThresholds_one_alert_per_violated_rule
    (cfg : Config) (now1 now2 : string) (st : Status) :
  let alerts := checkThresholds cfg now1 now2 st in
  (battery_soc st < battery_low (THRESHOLDS cfg) <-> count_rule BatteryLow alerts = 1%nat) /\
  (~ battery_soc st < battery_low (THRESHOLDS cfg) <-> count_rule BatteryLow alerts = 0%nat) /\
  (load_high (THRESHOLDS cfg) < campus_load st <-> count_rule LoadHigh alerts = 1%nat) /\
  (~ load_high (THRESHOLDS cfg) < campus_load st <-> count_rule LoadHigh alerts = 0%nat) /\
  length alerts = (count_rule BatteryLow alerts + count_rule LoadHigh alerts)%nat /\
  (forall a, In a alerts ->
     a = battery_alert (THRESHOLDS cfg) now1 \/ a = load_alert (THRESHOLDS cfg) now2) /\
  count_rule BatteryLow
    (checkThresholds CONFIG now1 now2 (with_battery_soc (37 # 2) st)) = 1%nat /\
  count_rule BatteryLow
    (checkThresholds CONFIG now1 now2 (with_battery_soc 25 st)) = 0%nat.
Proof.
  cbn zeta. rewrite checkThresholds_eq.
  split; [| split; [| split; [| split; [| split; [| split; [| split]]]]]].
  - destruct (Qlt_le_dec (battery_soc st) (battery_low (THRESHOLDS cfg))) as [Hb | Hb];
      destruct (Qlt_le_dec (load_high (THRESHOLDS cfg)) (campus_load st));
      cbn; split; intros; try reflexivity; try assumption; try discriminate;
      exfalso; lra.
  - destruct (Qlt_le_dec (battery_soc st) (battery_low (THRESHOLDS cfg))) as [Hb | Hb];
      destruct (Qlt_le_dec (load_high (THRESHOLDS cfg)) (campus_load st));
      cbn; split; intros; try reflexivity; try discriminate;
      try (intro; lra); exfalso; auto.
  - destruct (Qlt_le_dec (battery_soc st) (battery_low (THRESHOLDS cfg)));
      destruct (Qlt_le_dec (load_high (THRESHOLDS cfg)) (campus_load st)) as [Hl | Hl];
      cbn; split; intros; try reflexivity; try assumption; try discriminate;
      exfalso; lra.
  - destruct (Qlt_le_dec (battery_soc st) (battery_low (THRESHOLDS cfg)));
      destruct (Qlt_le_dec (load_high (THRESHOLDS cfg)) (campus_load st)) as [Hl | Hl];
      cbn; split; intros; try reflexivity; try discriminate;
      try (intro; lra); exfalso; auto.
  - destruct (Qlt_le_dec (battery_soc st) (battery_low (THRESHOLDS cfg)));
      destruct (Qlt_le_dec (load_high (THRESHOLDS cfg)) (campus_load st));
      reflexivity.
  - intros a Ha.
    destruct (Qlt_le_dec (battery_soc st) (battery_low (THRESHOLDS cfg)));
      destruct (Qlt_le_dec (load_high (THRESHOLDS cfg)) (campus_load st));
      cbn in Ha; intuition.
  - rewrite checkThresholds_eq, count_rule_app.
    cbn [with_battery_soc battery_soc campus_load].
    destruct (Qlt_le_dec (37 # 2) (battery_low (THRESHOLDS CONFIG))) as [Hb | Hb];
      [| cbn in Hb; exfalso; lra].
    destruct (Qlt_le_dec (load_high (THRESHOLDS CONFIG)) (campus_load st));
      reflexivity.
  - rewrite checkThresholds_eq, count_rule_app.
    cbn [with_battery_soc battery_soc campus_load].
    destruct (Qlt_le_dec 25 (battery_low (THRESHOLDS CONFIG))) as [Hb | Hb];
      [cbn in Hb; exfalso; lra |].
    destruct (Qlt_le_dec (load_high (THRESHOLDS CONFIG)) (campus_load st));
      reflexivity.
Qed.

(** C9 fails as stated: the same snapshot under the same thresholds,
    evaluated at two times, gives two different results. *)
Lemma checkThresholds_reads_the_clock :
  let low := with_battery_soc (37 # 2) afternoon in
  checkThresholds CONFIG "2025-09-27T11:03:05.000Z" "2025-09-27T11:03:05.000Z" low
  <> checkThresholds CONFIG "2025-09-27T11:03:10.000Z" "2025-09-27T11:03:10.000Z" low.
Proof.
  cbn zeta. rewrite !checkThresholds_eq. cbn. intros H. discriminate H.
Qed.

End Thresholds.

(** ** The store *)

Section Store.
Import StateManager.

Lemma with_state_run (f : gmap string value -> gmap string value) (w : World) :
  with_state f w
  = (Normal tt,
     {| stateManager := {| state := f (state (stateManager w));
                           listeners := listeners (stateManager w) |};
        sessionStorage := sessionStorage w;
        invoked := invoked w |}).
Proof. reflexivity. Qed.

(** What [forEach] does: it calls the callbacks up to the first that
    raises, in order, and changes nothing else. *)
Lemma forEach_run (beh : behaviour) (v : value) (cbs : list callback) (w : World) :
  snd (forEach beh cbs v w)
  = {| stateManager := stateManager w;
       sessionStorage := sessionStorage w;
       invoked := invoked w ++ map (fun cb => (cb, v)) (up_to_first_raise beh v cbs) |}.
Proof.
  revert w. induction cbs as [| cb rest IH]; intros w.
  - cbn. rewrite app_nil_r. now destruct w.
  - cbn [forEach]. unfold bind, call, up_to_first_raise.
    cbn [quiet_prefix]. unfold raises.
    destruct (beh cb v) as [e |] eqn:E.
    + reflexivity.
    + rewrite IH. cbn. unfold up_to_first_raise.
      now rewrite <- app_assoc.
Qed.

(** [forEach] returns exactly when no callback of the list raises. *)
Lemma forEach_completion (beh : behaviour) (v : value) (cbs : list callback) (w : World) :
  fst (forEach beh cbs v w) = Normal tt <-> quiet_prefix beh v cbs = cbs.
Proof.
  revert w. induction cbs as [| cb rest IH]; intros w.
  - cbn. tauto.
  - cbn [forEach quiet_prefix]. unfold bind, call, raises.
    destruct (beh cb v) as [e |] eqn:E.
    + cbn. split; discriminate.
    + rewrite IH. split; [intros -> | intros [=]]; congruence.
Qed.

Lemma up_to_first_raise_quiet (beh : behaviour) (v : value) (cbs : list callback) :
  quiet_prefix beh v cbs = cbs -> up_to_first_raise beh v cbs = cbs.
Proof.
  intros E. unfold up_to_first_raise. rewrite E.
  apply take_ge. lia.
Qed.


End Store.

Section Notification.
Import StateManager.

Lemma quiet_prefix_all (beh : behaviour) (v : value) (cbs : list callback) :
  quiet_prefix beh v cbs = cbs <-> (forall cb, cb ∈ cbs -> beh cb v = None).
Proof.
  induction cbs as [| cb rest IH]; cbn [quiet_prefix].
  - split; [intros _ c Hc; inversion Hc | reflexivity].
  - unfold raises. destruct (beh cb v) as [e |] eqn:E.
    + split; [discriminate |].
      intros Hall. specialize (Hall cb (list_elem_of_here _ _)). congruence.
    + split.
      * intros [= Hq] c Hc. apply elem_of_cons in Hc as [-> | Hc]; [exact E |].
        now apply IH.
      * intros Hall. f_equal. apply IH. intros c Hc.
        apply Hall. now apply list_elem_of_further.
Qed.

Lemma quiet_prefix_app (beh : behaviour) (v : value) (pre : list callback)
    (ci : callback) (post : list callback) (e : error) :
  (forall c, c ∈ pre -> beh c v = None) -> beh ci v = Some e ->
  quiet_prefix beh v (pre ++ ci :: post) = pre.
Proof.
  intros Hpre Hci. induction pre as [| c pre IH]; cbn [quiet_prefix app].
  - unfold raises. now rewrite Hci.
  - unfold raises. rewrite (Hpre c (list_elem_of_here _ _)). f_equal.
    apply IH. intros c' Hc'. apply Hpre. now apply list_elem_of_further.
Qed.

(** The exception that leaves [forEach] is the one of the first callback
    that raises. *)
Lemma forEach_throw (beh : behaviour) (v : value) (pre : list callback)
    (ci : callback) (post : list callback) (e : error) (w : World) :
  (forall c, c ∈ pre -> beh c v = None) -> beh ci v = Some e ->
  fst (forEach beh (pre ++ ci :: post) v w) = Throw e.
Proof.
  intros Hpre Hci. revert w.
  induction pre as [| c pre IH]; intros w; cbn [forEach app]; unfold bind, call.
  - now rewrite Hci.
  - rewrite (Hpre c (list_elem_of_here _ _)). apply IH.
    intros c' Hc'. apply Hpre. now apply list_elem_of_further.
Qed.

(** The world after [set]: the value is stored, the subscribers of the
    key are called up to the first that raises, nothing else changes. *)
Lemma set_run (beh : behaviour) (key : string) (v : value) (w : World) :
  after (set beh key v) w
  = {| stateManager := {| state := <[key := v]> (state (stateManager w));
                          listeners := listeners (stateManager w) |};
       sessionStorage := sessionStorage w;
       invoked := invoked w
                  ++ map (fun cb => (cb, v))
                         (up_to_first_raise beh v (subscribers key w)) |}.
Proof.
  unfold after, set, bind. rewrite with_state_run.
  unfold notify, subscribers, listeners_of. cbn [stateManager listeners].
  destruct (listeners (stateManager w) !! key) as [cbs |] eqn:E.
  - rewrite forEach_run. reflexivity.
  - cbn. now rewrite app_nil_r.
Qed.

Lemma set_completion (beh : behaviour) (key : string) (v : value) (w : World) :
  fst (set beh key v w) = Normal tt
  <-> (forall cb, cb ∈ subscribers key w -> beh cb v = None).
Proof.
  rewrite <- quiet_prefix_all.
  unfold set, bind. rewrite with_state_run.
  unfold notify, subscribers, listeners_of. cbn [stateManager listeners].
  destruct (listeners (stateManager w) !! key) as [cbs |] eqn:E.
  - apply forEach_completion.
  - cbn. tauto.
Qed.

Lemma set_calls (beh : behaviour) (key : string) (v : value) (w : World) :
  calls (set beh key v) w
  = map (fun cb => (cb, v)) (up_to_first_raise beh v (subscribers key w)).
Proof.
  unfold calls. rewrite set_run. cbn [invoked].
  now rewrite drop_app_length.
Qed.

Lemma get_after_set (beh : behaviour) (key : string) (v : value) (w : World) :
  get key (after (set beh key v) w) = v.
Proof.
  rewrite set_run. unfold get. cbn. now rewrite lookup_insert_eq.
Qed.

Lemma get_after_set_ne (beh : behaviour) (key k : string) (v : value) (w : World) :
  k ≠ key -> get k (after (set beh key v) w) = get k w.
Proof.
  intros Hne. rewrite set_run. unfold get. cbn.
  now rewrite lookup_insert_ne.
Qed.


End Notification.

Section NotificationFailure.
Import StateManager.



(** C7, as the code has it. [notify] has no handler around the calls:
    when a subscriber raises, the subscribers before it have been
    called, the ones after it are not called in that notification, and
    the exception leaves [set]; the value has been stored by then. *)
Theorem notification_stops_at_first_raise
    (beh : behaviour) (key : string) (v : value) (w : World)
    (pre : list callback) (ci : callback) (post : list callback) (e : error) :
  listeners_of key w = Some (pre ++ ci :: post) ->
  (forall c, c ∈ pre -> beh c v = None) ->
  beh ci v = Some e ->
  fst (set beh key v w) = Throw e /\
  get key (after (set beh key v) w) = v /\
  calls (set beh key v) w = map (fun cb => (cb, v)) (pre ++ [ci]) /\
  (forall cj, cj ∈ post -> cj ∉ pre -> cj ≠ ci ->
     (cj, v) ∉ calls (set beh key v) w).
Proof.
  intros Hl Hpre Hci.
  assert (Hcalls : calls (set beh key v) w = map (fun cb => (cb, v)) (pre ++ [ci])).
  { rewrite set_calls. unfold subscribers. rewrite Hl. cbn [from_option id].
    unfold up_to_first_raise. rewrite (quiet_prefix_app beh v pre ci post e Hpre Hci).
    f_equal. rewrite (cons_middle ci pre post), app_assoc.
    rewrite take_app_length'; [reflexivity |].
    rewrite length_app. cbn. lia. }
  split; [| split; [apply get_after_set | split; [exact Hcalls |]]].
  - unfold set, bind. rewrite with_state_run.
    unfold notify, listeners_of in *. cbn [stateManager listeners].
    rewrite Hl. now apply forEach_throw.
  - intros cj _ Hnpre Hne Hin. rewrite Hcalls in Hin.
    apply list_elem_of_fmap in Hin as (c & [= ->] & Hc).
    apply elem_of_app in Hc as [Hc | Hc]; [now apply Hnpre |].
    apply list_elem_of_singleton in Hc. now apply Hne.
Qed.

Lemma notification_stops_at_first_raise_witness :
  let v := VStatus afternoon in
  fst (set first_raises "currentStatus" v three_subscribers)
    = Throw "TypeError: element is null" /\
  get "currentStatus" (after (set first_raises "currentStatus" v) three_subscribers) = v /\
  calls (set first_raises "currentStatus" v) three_subscribers
    = map (fun cb => (cb, v)) ([] ++ [1%nat]) /\
  (forall cj, cj ∈ [2%nat; 3%nat] -> cj ∉ @nil callback -> cj ≠ 1%nat ->
     (cj, v) ∉ calls (set first_raises "currentStatus" v) three_subscribers).
Proof.
  apply (notification_stops_at_first_raise
           first_raises "currentStatus" (VStatus afternoon) three_subscribers
           [] 1%nat [2%nat; 3%nat] "TypeError: element is null").
  - reflexivity.
  - intros c Hc. inversion Hc.
  - reflexivity.
Defined.

(** C7 fails as stated: callbacks 1, 2 and 3 are subscribed to
    [currentStatus] and callback 1 raises; callbacks 2 and 3 are not
    called, and [set] itself ends with the exception. *)
Lemma later_subscribers_not_called_after_raise :
  let v := VStatus afternoon in
  let r := set first_raises "currentStatus" v three_subscribers in
  listeners_of "currentStatus" three_subscribers = Some [1%nat; 2%nat; 3%nat] /\
  first_raises 1%nat v = Some "TypeError: element is null" /\
  invoked three_subscribers = [] /\
  invoked (snd r) = [(1%nat, v)] /\
  fst r = Throw "TypeError: element is null".
Proof. cbn zeta. repeat split; reflexivity. Qed.

End NotificationFailure.

Section Subscription.
Import StateManager.

Lemma subscribe_run (key : string) (cb : callback) (w : World) :
  subscribe key cb w
  = (Normal {| closure_key := key; closure_callback := cb |},
     {| stateManager :=
          {| state := state (stateManager w);
             listeners := <[key := subscribers key w ++ [cb]]>
                            (listeners (stateManager w)) |};
        sessionStorage := sessionStorage w;
        invoked := invoked w |}).
Proof.
  unfold subscribe, bind, with_listeners, ret, subscribers, listeners_of.
  destruct (listeners (stateManager w) !! key); reflexivity.
Qed.

Lemma unsubscribe_run (u : Unsubscribe) (w : World) (cbs : list callback) :
  listeners_of (closure_key u) w = Some cbs ->
  unsubscribe u w
  = (Normal tt,
     {| stateManager :=
          {| state := state (stateManager w);
             listeners := <[closure_key u := filter (fun l => l ≠ closure_callback u) cbs]>
                            (listeners (stateManager w)) |};
        sessionStorage := sessionStorage w;
        invoked := invoked w |}).
Proof. intros Hl. unfold unsubscribe. now rewrite Hl. Qed.




End Subscription.

(** ** The history *)

Section History.
Import Config DataManager.

(** Pushing onto the last [cap] elements of a sequence and shifting once
    if needed gives the last [cap] elements of the extended sequence. *)
Lemma push_shift_window (cap : nat) (all : list value) (p : value) :
  push_shift (Z.of_nat cap) (drop (length all - cap) all) p
  = drop (length (all ++ [p]) - cap) (all ++ [p]).
Proof.
  unfold push_shift. rewrite !length_app, length_drop. cbn [length].
  destruct (Z.ltb_spec (Z.of_nat cap)
              (Z.of_nat (length all - (length all - cap) + 1))) as [Hgt | Hle].
  - assert (Hn : (cap <= length all)%nat) by lia.
    replace (length all + 1 - cap)%nat with (S (length all - cap)) by lia.
    rewrite <- (drop_app_le all [p]) by lia.
    generalize (length all - cap)%nat as k. generalize (all ++ [p]) as l.
    clear. intros l k. revert l. induction k as [| k IH]; intros [| x l];
      try reflexivity. cbn [drop]. apply IH.
  - assert (Hn : (length all < cap)%nat) by lia.
    replace (length all - cap)%nat with 0%nat by lia.
    replace (length all + 1 - cap)%nat with 0%nat by lia.
    reflexivity.
Qed.

(** With a history array in the store, [addHistoricalDataPoint] stores
    the array pushed and shifted. *)
Lemma addHistoricalDataPoint_run
    (cfg : Config) (beh : behaviour) (t : string) (st : Status) (w : World)
    (h : list value) :
  history w = Some h ->
  after (addHistoricalDataPoint cfg beh t st) w
  = after (StateManager.set beh "historicalData"
             (VArray (push_shift (maxPoints cfg) h (VPoint (newPoint t st))))) w.
Proof.
  unfold history, after, addHistoricalDataPoint, StateManager.updateHistoricalData.
  destruct (if truthy (StateManager.get "historicalData" w)
            then StateManager.get "historicalData" w else VArray []);
    intros [= ->]; reflexivity.
Qed.

Lemma history_after_set (beh : behaviour) (items : list value) (w : World) :
  history (after (StateManager.set beh "historicalData" (VArray items)) w)
  = Some items.
Proof. unfold history. now rewrite get_after_set. Qed.

Lemma maxPoints_nonneg (cfg : Config) : 0 < UPDATE_INTERVAL cfg -> (0 <= maxPoints cfg)%Z.
Proof.
  intros Hpos. unfold maxPoints. apply floor_lower.
  assert (H1 : 0 < UPDATE_INTERVAL cfg / 1000) by (apply Qlt_shift_div_l; lra).
  apply Qlt_le_weak, Qlt_shift_div_l; [exact H1 |].
  rewrite Qmult_0_l. reflexivity.
Qed.

Lemma record_points_window
    (cfg : Config) (beh : behaviour) (inputs : list (string * Status)) :
  (0 <= maxPoints cfg)%Z ->
  forall (w : World) (all : list value),
    history w = Some (drop (length all - Z.to_nat (maxPoints cfg)) all) ->
    history (record_points cfg beh inputs w)
    = Some (drop (length (all ++ inserted inputs) - Z.to_nat (maxPoints cfg))
                 (all ++ inserted inputs)).
Proof.
  intros Hcap. induction inputs as [| [t st] inputs IH]; intros w all Hw.
  - cbn. now rewrite app_nil_r.
  - cbn [record_points fold_left inserted map fst snd].
    rewrite (cons_middle _ all), app_assoc.
    apply IH.
    rewrite (addHistoricalDataPoint_run cfg beh t st w _ Hw).
    rewrite history_after_set. f_equal.
    rewrite <- (Z2Nat.id (maxPoints cfg)) at 1 by exact Hcap.
    apply push_shift_window.
Qed.

(** C4. Starting from an empty history, after any sequence of calls of
    [addHistoricalDataPoint] the published history is the insertion
    sequence without its first [count - maxPoints] points: it has at
    most [maxPoints] points, they are in insertion order, and its i-th
    point is the [(count - maxPoints + i)]-th inserted one, so that the
    oldest surviving point is the [(count - maxPoints)]-th. *)
Theorem history_keeps_the_latest_points
    (cfg : Config) (beh : behaviour) (inputs : list (string * Status)) (w : World) :
  0 < UPDATE_INTERVAL cfg ->
  history w = Some [] ->
  let capacity := Z.to_nat (maxPoints cfg) in
  let count := length inputs in
  exists published : list value,
    history (record_points cfg beh inputs w) = Some published /\
    published = drop (count - capacity) (inserted inputs) /\
    (length published <= capacity)%nat /\
    length published = Nat.min count capacity /\
    (forall i : nat, published !! i = inserted inputs !! (count - capacity + i)%nat).
Proof.
  intros Hpos Hempty. cbn zeta.
  pose proof (maxPoints_nonneg cfg Hpos) as Hcap.
  pose proof (record_points_window cfg beh inputs Hcap w [] Hempty) as Hrec.
  cbn [app] in Hrec.
  assert (Hlen : length (inserted inputs) = length inputs)
    by (unfold inserted; apply length_map).
  rewrite Hlen in Hrec.
  eexists. split; [exact Hrec |]. split; [reflexivity |].
  rewrite length_drop, Hlen.
  split; [lia |]. split; [lia |].
  intros i. apply lookup_drop.
Qed.

(** With three ticks in the retention window, inserting A, B, C and D
    into the empty history of the start-up world publishes B, C, D. *)
Lemma history_keeps_the_latest_points_witness :
  maxPoints eight_hours = 3%Z /\
  exists published : list value,
    history (record_points eight_hours all_return
               [reading_A; reading_B; reading_C; reading_D] initialWorld)
    = Some published /\
    published = inserted [reading_B; reading_C; reading_D] /\
    (length published <= 3)%nat.
Proof.
  split; [reflexivity |].
  destruct (history_keeps_the_latest_points eight_hours all_return
              [reading_A; reading_B; reading_C; reading_D] initialWorld)
    as (published & Hp & Heq & Hlen & _).
  - reflexivity.
  - reflexivity.
  - exists published. split; [exact Hp |]. split; [exact Heq | exact Hlen].
Defined.

End History.

(** ** The mock authentication *)

Section Authentication.
Import StateManager AuthService.

Lemma pair_eta {A B : Type} (p : A * B) : p = (fst p, snd p).
Proof. now destruct p. Qed.

Lemma subscribers_after_set (beh : behaviour) (key k : string) (v : value) (w : World) :
  subscribers k (after (set beh key v) w) = subscribers k w.
Proof. now rewrite set_run. Qed.

Lemma login_accepted (beh : behaviour) (w : World) :
  login beh "admin" "password" w
  = match loginUser beh admin_user (persisted w) with
    | (Normal _, w') => (Resolved admin_user, w')
    | (Throw e, w') => (Unsettled e, w')
    end.
Proof. reflexivity. Qed.

Lemma login_refused (beh : behaviour) (username password : string) (w : World) :
  ~ (username = "admin" /\ password = "password") ->
  login beh username password w
  = (Rejected "Invalid credentials. Try admin/password.", w).
Proof.
  intros Hno. unfold login.
  destruct (String.eqb_spec username "admin") as [-> | Hu];
    destruct (String.eqb_spec password "password") as [-> | Hp];
    try reflexivity.
  exfalso. now apply Hno.
Qed.

(** [loginUser] when it returns: both entries are set. *)
Lemma loginUser_returns (beh : behaviour) (user : User) (w w' : World) :
  loginUser beh user w = (Normal tt, w') ->
  get "isAuthenticated" w' = VBool true /\
  get "user" w' = VUser user /\
  sessionStorage w' = sessionStorage w.
Proof.
  unfold loginUser, bind.
  rewrite (pair_eta (set beh "isAuthenticated" (VBool true) w)).
  destruct (fst (set beh "isAuthenticated" (VBool true) w)) as [[] | e];
    [| discriminate].
  fold (after (set beh "isAuthenticated" (VBool true)) w).
  rewrite (pair_eta (set beh "user" (VUser user) _)).
  intros [= _ <-].
  fold (after (set beh "user" (VUser user))
              (after (set beh "isAuthenticated" (VBool true)) w)).
  split; [| split].
  - rewrite get_after_set_ne by discriminate. apply get_after_set.
  - apply get_after_set.
  - now rewrite !set_run.
Qed.

(** [loginUser] returns when no subscriber of the two keys raises. *)
Lemma loginUser_completes (beh : behaviour) (user : User) (w : World) :
  (forall cb, cb ∈ subscribers "isAuthenticated" w -> beh cb (VBool true) = None) ->
  (forall cb, cb ∈ subscribers "user" w -> beh cb (VUser user) = None) ->
  exists w', loginUser beh user w = (Normal tt, w').
Proof.
  intros H1 H2. unfold loginUser, bind.
  apply set_completion in H1.
  rewrite (pair_eta (set beh "isAuthenticated" (VBool true) w)), H1.
  fold (after (set beh "isAuthenticated" (VBool true)) w).
  rewrite <- (subscribers_after_set beh "isAuthenticated" "user" (VBool true) w) in H2.
  apply set_completion in H2.
  eexists. rewrite (pair_eta (set beh "user" (VUser user) _)), H2. reflexivity.
Qed.

End Authentication.

Section AuthenticationClaims.
Import StateManager AuthService.

(** C8, as the code has it. [login] resolves only for the user name
    [admin] with the password [password], and then with the admin user,
    the user persisted in the session and both store entries set; for
    that pair it does resolve when no subscriber of [isAuthenticated] or
    [user] raises.  For every other pair it rejects with the message
    [Invalid credentials. Try admin/password.] and changes nothing:
    not the session storage, not the store, and no callback is
    called. *)
Theorem login_accepts_only_the_fixed_pair
    (beh : behaviour) (username password : string) (w : World) :
  (forall user w',
     login beh username password w = (Resolved user, w') ->
     username = "admin" /\ password = "password" /\ user = admin_user /\
     sessionStorage w' !! "authUser" = Some (JSON_stringify admin_user) /\
     get "isAuthenticated" w' = VBool true /\
     get "user" w' = VUser admin_user) /\
  (username = "admin" -> password = "password" ->
   (forall cb, cb ∈ subscribers "isAuthenticated" w -> beh cb (VBool true) = None) ->
   (forall cb, cb ∈ subscribers "user" w -> beh cb (VUser admin_user) = None) ->
   exists w', login beh username password w = (Resolved admin_user, w')) /\
  (~ (username = "admin" /\ password = "password") ->
   login beh username password w
   = (Rejected "Invalid credentials. Try admin/password.", w)).
Proof.
  split; [| split].
  - intros user w' Hres.
    destruct (String.eqb_spec username "admin") as [-> | Hu];
      [destruct (String.eqb_spec password "password") as [-> | Hp] |].
    + rewrite login_accepted in Hres.
      destruct (loginUser beh admin_user (persisted w)) as [[[] | e] w1] eqn:E;
        [| discriminate].
      injection Hres as <- <-.
      apply loginUser_returns in E as (Ha & Hu & Hs).
      repeat split; try assumption.
      rewrite Hs. unfold persisted, after, setItem. cbn.
      apply lookup_insert_eq.
    + rewrite login_refused in Hres by (intros [_ ?]; contradiction).
      discriminate.
    + rewrite login_refused in Hres by (intros [? _]; contradiction).
      discriminate.
  - intros -> -> H1 H2. rewrite login_accepted.
    destruct (loginUser_completes beh admin_user (persisted w) H1 H2) as [w' ->].
    eauto.
  - apply login_refused.
Qed.

(** The accepted pair resolves in the start-up world when no callback
    raises, and a wrong password is rejected with the world unchanged. *)
Lemma login_accepts_only_the_fixed_pair_witness :
  (exists w', login all_return "admin" "password" header_subscriber
              = (Resolved admin_user, w')) /\
  login all_return "admin" "letmein" header_subscriber
  = (Rejected "Invalid credentials. Try admin/password.", header_subscriber).
Proof.
  split.
  - apply (login_accepts_only_the_fixed_pair
             all_return "admin" "password" header_subscriber);
      [reflexivity | reflexivity | intros cb _; reflexivity | intros cb _; reflexivity].
  - apply (login_accepts_only_the_fixed_pair
             all_return "admin" "letmein" header_subscriber).
    intros [_ H]. discriminate H.
Defined.

(** C8 fails as stated: with the accepted pair, when the subscriber of
    [isAuthenticated] raises, the promise is never resolved; the user is
    persisted and [isAuthenticated] is set, [user] is not. *)
Lemma login_unsettled_when_subscriber_raises :
  let r := login first_raises "admin" "password" header_subscriber in
  subscribers "isAuthenticated" header_subscriber = [1%nat] /\
  fst r = Unsettled "TypeError: element is null" /\
  (forall user, fst r <> Resolved user) /\
  sessionStorage (snd r) !! "authUser" = Some (JSON_stringify admin_user) /\
  get "isAuthenticated" (snd r) = VBool true /\
  get "user" (snd r) = VNull.
Proof.
  cbn zeta. split; [reflexivity |]. split; [reflexivity |].
  split; [intros user H; discriminate H |].
  repeat split; reflexivity.
Qed.

End AuthenticationClaims.

(** ** One tick *)

Section Tick.
Import Config DataManager.



End Tick.

(** * Further properties *)

(** ** Energy metrics *)

Section MetricsProperties.
Import Config DataManager.

(** X1. The category of a grid power is the mirror image of the category
    of the opposite grid power (exporting for importing, balanced for
    balanced), and a grid power is balanced exactly when its magnitude is
    at most 10. *)
Theorem categorizeGridInteraction_mirror (gridPower : Q) :
  categorizeGridInteraction (- gridPower)
  = mirrored (categorizeGridInteraction gridPower) /\
  (categorizeGridInteraction gridPower = "balanced" <-> Qabs gridPower <= 10).
Proof.
  unfold categorizeGridInteraction. rewrite Qabs_Qle_condition.
  destruct (Qlt_le_dec gridPower (- (10))) as [H1 | H1];
    destruct (Qlt_le_dec 10 gridPower) as [H2 | H2];
    destruct (Qlt_le_dec (- gridPower) (- (10))) as [H3 | H3];
    destruct (Qlt_le_dec 10 (- gridPower)) as [H4 | H4];
    try (exfalso; lra); cbn; (split; [reflexivity |]);
    (split; [intros H; try discriminate H; split; lra | intros [? ?]; try reflexivity; exfalso; lra]).
Qed.

Lemma renewable_percentage_positive_load (st : Status) :
  0 < campus_load st ->
  calculateRenewablePercentage st = total_generation st / campus_load st * 100.
Proof.
  intros Hl. unfold calculateRenewablePercentage.
  destruct (Qlt_le_dec 0 (campus_load st)) as [_ | Hn]; [reflexivity | exfalso; lra].
Qed.

(** X2. With a positive load the renewable percentage is not capped: it is
    above 100 exactly when the generation exceeds the load, and it is not
    negative when the generation is not.  Without a positive load it is
    0. *)
Theorem calculateRenewablePercentage_not_capped (st : Status) :
  (0 < campus_load st ->
   (100 < calculateRenewablePercentage st <-> campus_load st < total_generation st) /\
   (0 <= total_generation st -> 0 <= calculateRenewablePercentage st)) /\
  (campus_load st <= 0 -> calculateRenewablePercentage st = 0).
Proof.
  split.
  - intros Hl. rewrite (renewable_percentage_positive_load st Hl).
    set (q := total_generation st / campus_load st).
    split; [split |].
    + intros H100. destruct (Qlt_le_dec (campus_load st) (total_generation st)) as [? | Hle];
        [assumption | exfalso].
      assert (q <= 1) by (apply Qle_shift_div_r; lra). lra.
    + intros Hgt. assert (1 < q) by (apply Qlt_shift_div_l; lra). lra.
    + intros H0. assert (0 <= q) by (apply Qle_shift_div_l; lra). lra.
  - intros Hl. unfold calculateRenewablePercentage.
    destruct (Qlt_le_dec 0 (campus_load st)) as [Hp | _]; [exfalso; lra | reflexivity].
Qed.

Lemma calculateRenewablePercentage_not_capped_witness :
  100 < calculateRenewablePercentage afternoon /\
  campus_load afternoon < total_generation afternoon.
Proof.
  destruct (calculateRenewablePercentage_not_capped afternoon) as [H _].
  assert (Hl : 0 < campus_load afternoon) by reflexivity.
  destruct (H Hl) as [Hiff _].
  assert (Hgt : campus_load afternoon < total_generation afternoon) by reflexivity.
  split; [apply Hiff; exact Hgt | exact Hgt].
Defined.

End MetricsProperties.

Section MetricsOfSnapshots.
Import Utils Config DataManager.

(** X3. On every snapshot the generator publishes under the shipped
    configuration, the renewable percentage lies between 0 and 300: the
    load is at least 200 and the generation at most 600. *)
Theorem renewable_percentage_of_generator_output
    (rand : nat -> Q) (now : string) (st : Status) :
  let out := simulateRealTimeData CONFIG rand now st in
  0 <= calculateRenewablePercentage out <= 300.
Proof.
  cbn zeta.
  pose proof (updated_within_bounds CONFIG rand now st CONFIG_ordered_bounds) as B.
  pose proof (rounded_within_bounds CONFIG _ CONFIG_one_decimal_bounds B)
    as (_ & _ & [Hl _] & _).
  destruct B as ([Hs0 Hs1] & [Hw0 Hw1] & _).
  fold (simulateRealTimeData CONFIG rand now st) in Hl.
  assert (Ht : 0 <= total_generation (simulateRealTimeData CONFIG rand now st) <= 600).
  { apply (round1_between_tenths 0 600);
      [apply (one_decimal_Z 0) | apply (one_decimal_Z 600) |].
    cbn in *. split; lra. }
  set (out := simulateRealTimeData CONFIG rand now st) in *.
  assert (Hpos : 0 < campus_load out) by lra.
  rewrite (renewable_percentage_positive_load out Hpos).
  assert (0 <= total_generation out / campus_load out)
    by (apply Qle_shift_div_l; lra).
  assert (total_generation out / campus_load out <= 3)
    by (apply Qle_shift_div_r; lra).
  split; lra.
Qed.

(** The self-sufficiency of a snapshot with a positive load. *)
Lemma self_sufficiency_positive_load (st : Status) :
  0 < campus_load st ->
  exists s, calculateSelfSufficiency st = Some s /\
    s <= 100 /\
    (s == 100 <-> grid_power st <= 0) /\
    (s < 0 <-> campus_load st < grid_power st).
Proof.
  unfold calculateSelfSufficiency.
  intros Hl. destruct (Qlt_le_dec 0 (grid_power st)) as [Hg | Hg].
  - destruct (Qeq_bool (campus_load st) 0) eqn:E.
    { apply Qeq_bool_iff in E. exfalso. lra. }
    eexists. split; [reflexivity |].
    assert (Ha : Qabs (grid_power st) == grid_power st) by (apply Qabs_pos; lra).
    rewrite Ha.
    set (q := (campus_load st - grid_power st) / campus_load st).
    assert (Hq1 : q < 1) by (apply Qlt_shift_div_r; lra).
    split; [lra |]. split; [split; intros; exfalso; lra |].
    split.
    + intros Hneg.
      destruct (Qlt_le_dec (campus_load st) (grid_power st)) as [? | Hle];
        [assumption | exfalso].
      assert (0 <= q) by (apply Qle_shift_div_l; lra). lra.
    + intros Hgt. assert (q < 0) by (apply Qlt_shift_div_r; lra). lra.
  - exists 100. split; [reflexivity |]. split; [lra |].
    split; [split; [intros _; exact Hg | reflexivity] |].
    split; intros; exfalso; lra.
Qed.

(** X4. The self-sufficiency is not a finite number exactly when power is
    imported and the load is zero.  With a positive load it is a number of
    at most 100, equal to 100 exactly when no power is imported, and
    negative exactly when the imported power exceeds the load. *)
Theorem calculateSelfSufficiency_range (st : Status) :
  (calculateSelfSufficiency st = None
   <-> 0 < grid_power st /\ campus_load st == 0) /\
  (0 < campus_load st ->
   exists s, calculateSelfSufficiency st = Some s /\
     s <= 100 /\
     (s == 100 <-> grid_power st <= 0) /\
     (s < 0 <-> campus_load st < grid_power st)).
Proof.
  split; [| apply self_sufficiency_positive_load].
  unfold calculateSelfSufficiency.
  destruct (Qlt_le_dec 0 (grid_power st)) as [Hg | Hg].
  - destruct (Qeq_bool (campus_load st) 0) eqn:E.
    + apply Qeq_bool_iff in E. split; [intros _; split; assumption | reflexivity].
    + apply Qeq_bool_neq in E. split; [discriminate | intros [_ H0]; contradiction].
  - split; [discriminate | intros [Hp _]; exfalso; lra].
Qed.

Lemma calculateSelfSufficiency_range_witness :
  exists s, calculateSelfSufficiency (with_grid_power 400 afternoon) = Some s /\
            s < 0.
Proof.
  destruct (calculateSelfSufficiency_range (with_grid_power 400 afternoon))
    as [_ H].
  assert (Hl : 0 < campus_load (with_grid_power 400 afternoon)) by reflexivity.
  destruct (H Hl) as (s & Hs & _ & _ & Hneg).
  exists s. split; [exact Hs |]. apply Hneg. reflexivity.
Defined.

Lemma calculateMetrics_some_interaction (st : Status) (m : Metrics) :
  calculateMetrics (Some st) = Some m ->
  gridInteraction m = categorizeGridInteraction (grid_power st).
Proof.
  intros [= <-]. reflexivity.
Qed.

(** X5. The metrics of a snapshot with a positive load are consistent: when
    the grid interaction is [exporting] the self-sufficiency is 100, and
    when it is [importing] the self-sufficiency is below 100.  The battery
    efficiency is the constant 95.2.  For no status there are no
    metrics. *)
Theorem calculateMetrics_consistent (st : Status) :
  calculateMetrics None = None /\
  (0 < campus_load st ->
   exists m, calculateMetrics (Some st) = Some m /\
     batteryEfficiency m == 476 # 5 /\
     (gridInteraction m = "exporting" -> selfSufficiency m = Some 100) /\
     (gridInteraction m = "importing" ->
      exists s, selfSufficiency m = Some s /\ s < 100)).
Proof.
  split; [reflexivity |]. intros Hl.
  eexists. split; [reflexivity |]. cbn [batteryEfficiency gridInteraction selfSufficiency].
  split; [reflexivity |].
  destruct (self_sufficiency_positive_load st Hl) as (s & Hs & Hle & H100 & _).
  unfold categorizeGridInteraction.
  destruct (Qlt_le_dec (grid_power st) (- (10))) as [H1 | H1].
  - split; [| discriminate]. intros _.
    unfold calculateSelfSufficiency.
    destruct (Qlt_le_dec 0 (grid_power st)); [exfalso; lra | reflexivity].
  - destruct (Qlt_le_dec 10 (grid_power st)) as [H2 | H2].
    + split; [discriminate |]. intros _. exists s. split; [exact Hs |].
      destruct (Qlt_le_dec s 100) as [? | Hge]; [assumption | exfalso].
      assert (s == 100) by lra. apply H100 in H. lra.
    + split; discriminate.
Qed.

Lemma calculateMetrics_consistent_witness :
  0 < campus_load (with_grid_power 400 afternoon) /\
  exists m s, calculateMetrics (Some (with_grid_power 400 afternoon)) = Some m /\
    selfSufficiency m = Some s /\ s < 100.
Proof.
  assert (Hl : 0 < campus_load (with_grid_power 400 afternoon)) by reflexivity.
  split; [exact Hl |].
  destruct (calculateMetrics_consistent (with_grid_power 400 afternoon))
    as [_ H].
  destruct (H Hl) as (m & Hm & _ & _ & Himp).
  pose proof (calculateMetrics_some_interaction _ _ Hm) as Hg.
  exists m. destruct Himp as (s & Hs & Hlt).
  - rewrite Hg. reflexivity.
  - exists s. auto.
Defined.

End MetricsOfSnapshots.

(** ** Reports *)

Section Reports.
Import Utils DataManager.

Lemma round1_is_one_decimal (x : Q) : Qabs x < 10 ^ 21 -> one_decimal (round 1 x).
Proof.
  intros Hs. exists (toFixed_integer x 1). now apply round1_small.
Qed.

(** A value drawn as [base + Math.random() * span], rounded: between the
    whole numbers [base] and [base + span], with one decimal. *)
Lemma rounded_draw (base span : Z) (r : Q) :
  (0 <= base)%Z -> (0 <= span)%Z -> (base + span < 10 ^ 20)%Z ->
  0 <= r < 1 ->
  inject_Z base <= round 1 (inject_Z base + r * inject_Z span)
     <= inject_Z (base + span) /\
  one_decimal (round 1 (inject_Z base + r * inject_Z span)).
Proof.
  intros Hb Hs Hbig [Hr0 Hr1].
  pose proof (one_decimal_Z base) as Hob.
  pose proof (one_decimal_Z (base + span)) as Hos.
  rewrite Zle_Qle in Hb, Hs. rewrite Zlt_Qlt in Hbig.
  rewrite inject_Z_plus in *.
  change (inject_Z 0) with 0 in *.
  change (inject_Z (10 ^ 20)) with (10 ^ 20) in Hbig.
  set (b := inject_Z base) in *. set (s := inject_Z span) in *.
  assert (Hrs0 : 0 <= r * s) by (apply Qmult_le_0_compat; assumption).
  assert (Hrs1 : r * s <= s).
  { rewrite <- (Qmult_1_l s) at 2. apply Qmult_le_compat_r; [lra | assumption]. }
  split.
  - apply round1_between_tenths; [exact Hob | exact Hos | split; lra].
  - apply round1_is_one_decimal. apply Qabs_Qlt_condition.
    assert (10 ^ 20 < 10 ^ 21) by reflexivity. split; lra.
Qed.

Lemma report_rows_spec (dateLabel : nat -> string) (rand : nat -> Q) :
  valid_draws rand ->
  forall (remaining drawn : nat),
    length (report_rows dateLabel rand remaining drawn) = remaining /\
    forall (j : nat) (row : ReportRow),
      report_rows dateLabel rand remaining drawn !! j = Some row ->
      date row = dateLabel (remaining - 1 - j)%nat /\
      (380 <= generation row <= 500 /\ one_decimal (generation row)) /\
      (320 <= consumption row <= 400 /\ one_decimal (consumption row)) /\
      (3500 <= savings row <= 5500 /\ one_decimal (savings row)).
Proof.
  intros Hd. induction remaining as [| i IH]; intros drawn.
  - split; [reflexivity |]. intros j row H. discriminate H.
  - destruct (IH (drawn + 3)%nat) as [Hlen Hrows].
    split; [cbn; now rewrite Hlen |].
    intros [| j] row Hrow.
    + cbn in Hrow. injection Hrow as <-. cbn [date generation consumption savings].
      split; [f_equal; lia |].
      split; [| split].
      * apply (rounded_draw 380 120); [lia | lia | reflexivity | apply Hd].
      * apply (rounded_draw 320 80); [lia | lia | reflexivity | apply Hd].
      * apply (rounded_draw 3500 2000); [lia | lia | reflexivity | apply Hd].
    + cbn in Hrow. destruct (Hrows j row Hrow) as (Hdate & Hrest).
      split; [| exact Hrest]. rewrite Hdate. f_equal. lia.
Qed.

(** X6. With draws in [0, 1), the report for a whole number of days has one
    row per day (none when [days] is zero or negative), from the oldest
    day to today, and every row holds a generation between 380 and 500,
    a consumption between 320 and 400 and savings between 3500 and 5500,
    each with one decimal. *)
Theorem generateHistoricalReport_rows
    (dateLabel : nat -> string) (rand : nat -> Q) (days : Z) :
  valid_draws rand ->
  let report := generateHistoricalReport dateLabel rand days in
  length report = Z.to_nat days /\
  ((days <= 0)%Z -> report = []) /\
  forall (j : nat) (row : ReportRow),
    report !! j = Some row ->
    date row = dateLabel (Z.to_nat days - 1 - j)%nat /\
    (380 <= generation row <= 500 /\ one_decimal (generation row)) /\
    (320 <= consumption row <= 400 /\ one_decimal (consumption row)) /\
    (3500 <= savings row <= 5500 /\ one_decimal (savings row)).
Proof.
  intros Hd. cbn zeta. unfold generateHistoricalReport.
  destruct (report_rows_spec dateLabel rand Hd (Z.to_nat days) 0) as [Hlen Hrows].
  split; [exact Hlen |]. split; [| exact Hrows].
  intros Hneg. replace (Z.to_nat days) with 0%nat by lia. reflexivity.
Qed.

Lemma generateHistoricalReport_rows_witness :
  length (generateHistoricalReport day_label slight_rise 30) = 30%nat.
Proof.
  apply (generateHistoricalReport_rows day_label slight_rise 30).
  intros [| [| [| i]]]; cbn; split; lra.
Defined.

End Reports.

(** ** Chart data *)

Section ChartData.
Import ChartManager.




(** X8. The battery power data has one value per history point: 0 for the
    first point and, for every later point, 16 times the rise of the
    state of charge since the point before.  The bar of a point is drawn
    in the charging colour exactly when the state of charge has not
    fallen since the point before; the first bar always is. *)
Theorem calculateBatteryPower_follows_soc (data : list HistoryPoint) :
  let power := calculateBatteryPower data in
  length power = length data /\
  length (barColours power) = length data /\
  (forall first, data !! 0%nat = Some first ->
     power !! 0%nat = Some 0 /\
     barColours power !! 0%nat = Some battery_charging) /\
  (forall (i : nat) (previous d : HistoryPoint),
     data !! i = Some previous -> data !! S i = Some d ->
     power !! S i = Some ((battery d - battery previous) * 16) /\
     (barColours power !! S i = Some battery_charging
      <-> battery previous <= battery d) /\
     (barColours power !! S i = Some battery_discharging
      <-> battery d < battery previous)).
Proof.
  cbn zeta. unfold calculateBatteryPower, barColours.
  split; [apply length_imap |].
  split; [rewrite length_map; apply length_imap |].
  split.
  - intros first H0. rewrite list_lookup_fmap, list_lookup_imap, H0.
    split; reflexivity.
  - intros i previous d Hp Hd.
    rewrite list_lookup_fmap, list_lookup_imap, Hd. cbn. rewrite Hp.
    split; [reflexivity |].
    destruct (Qle_bool 0 ((battery d - battery previous) * 16)) eqn:E.
    + apply Qle_bool_iff in E. split; split.
      * intros _. lra.
      * reflexivity.
      * intros H. discriminate H.
      * intros H. exfalso. lra.
    + apply Qle_bool_false in E. split; split.
      * intros H. discriminate H.
      * intros H. exfalso. lra.
      * intros _. lra.
      * reflexivity.
Qed.

End ChartData.

(** ** Theme settings *)

Section Theme.
Import SettingsManager.

Lemma getTheme_setTheme (t : string) (b : Browser) :
  getTheme (setTheme t b) = if String.eqb t EmptyString then "system" else t.
Proof.
  unfold setTheme, applyTheme, getTheme; cbn [localStorage].
  rewrite lookup_insert_eq. destruct t; reflexivity.
Qed.

Lemma scheme_after_applyTheme (b : Browser) :
  data_color_scheme (applyTheme b)
  = Some (if String.eqb (getTheme b) "system"
          then (if prefers_dark b then "dark" else "light")
          else getTheme b).
Proof. reflexivity. Qed.

Lemma getTheme_applyTheme (b : Browser) : getTheme (applyTheme b) = getTheme b.
Proof. reflexivity. Qed.

(** X9. A theme that is set is the theme read back, and the scheme applied
    to the document, whatever the operating system prefers and also after
    the preference changes, when it is neither the empty text nor
    [system]: there is no check that it is [light] or [dark].  The empty
    text is stored but read back as [system]. *)
Theorem setTheme_read_back (t : string) (b : Browser) (dark : bool) :
  theme (setTheme t b) = t /\
  getTheme (setTheme EmptyString b) = "system" /\
  (t <> EmptyString -> getTheme (setTheme t b) = t) /\
  (t <> EmptyString -> t <> "system" ->
   data_color_scheme (setTheme t b) = Some t /\
   data_color_scheme (on_preference_change dark (setTheme t b)) = Some t).
Proof.
  split; [reflexivity |]. split; [apply getTheme_setTheme |].
  assert (Hget : t <> EmptyString -> getTheme (setTheme t b) = t).
  { intros Hne. rewrite getTheme_setTheme.
    destruct (String.eqb_spec t EmptyString); [contradiction | reflexivity]. }
  split; [exact Hget |].
  intros Hne Hsys.
  assert (Hs : data_color_scheme (setTheme t b) = Some t).
  { unfold setTheme. rewrite scheme_after_applyTheme.
    fold (setTheme t b). change (getTheme _) with (getTheme (setTheme t b)).
    rewrite (Hget Hne).
    destruct (String.eqb_spec t "system"); [contradiction | reflexivity]. }
  split; [exact Hs |].
  unfold on_preference_change.
  match goal with |- context [String.eqb (getTheme ?c) "system"] =>
    change (getTheme c) with (getTheme (setTheme t b)) end.
  rewrite (Hget Hne).
  destruct (String.eqb_spec t "system"); [contradiction | exact Hs].
Qed.

Lemma setTheme_read_back_witness :
  getTheme (setTheme "dark" fresh_browser) = "dark" /\
  data_color_scheme (on_preference_change false (setTheme "dark" fresh_browser))
  = Some "dark".
Proof.
  destruct (setTheme_read_back "dark" fresh_browser false) as (_ & _ & Hget & Hs).
  split.
  - apply Hget. discriminate.
  - apply Hs; discriminate.
Defined.

(** X10. While the theme is [system] (or none is stored), the scheme
    applied to the document follows the preference of the operating
    system, at start-up and at every change of the preference. *)
Theorem system_theme_follows_preference (b : Browser) (dark : bool) :
  getTheme b = "system" ->
  data_color_scheme (init b)
  = Some (if prefers_dark b then "dark" else "light") /\
  data_color_scheme (on_preference_change dark (init b))
  = Some (if dark then "dark" else "light") /\
  getTheme (on_preference_change dark (init b)) = "system".
Proof.
  intros Hsys.
  assert (Hi : getTheme (init b) = "system") by exact Hsys.
  split.
  - unfold init. rewrite scheme_after_applyTheme.
    change (getTheme _) with (getTheme b). now rewrite Hsys.
  - unfold on_preference_change.
    match goal with |- context [String.eqb (getTheme ?c) "system"] =>
      change (getTheme c) with (getTheme b) end.
    rewrite Hsys. cbn [String.eqb Ascii.eqb Bool.eqb].
    split; [| exact Hsys].
    rewrite scheme_after_applyTheme.
    match goal with |- context [String.eqb (getTheme ?c) "system"] =>
      change (getTheme c) with (getTheme b) end.
    now rewrite Hsys.
Qed.

Lemma system_theme_follows_preference_witness :
  data_color_scheme (on_preference_change true (init fresh_browser)) = Some "dark".
Proof.
  apply (system_theme_follows_preference fresh_browser true). reflexivity.
Defined.

Lemma getTheme_switchTheme (b : Browser) :
  getTheme (switchTheme b)
  = if (String.eqb (getTheme b) "light" || String.eqb (getTheme b) "system")%bool
    then "dark" else "light".
Proof.
  unfold switchTheme. rewrite getTheme_setTheme.
  destruct (String.eqb (getTheme b) "light" || String.eqb (getTheme b) "system")%bool;
    reflexivity.
Qed.

(** X11. The theme switcher stores [dark] when the theme was [light] or
    [system] and [light] in every other case, and applies what it
    stores.  So after any number of clicks, one at least, the theme is
    [light] or [dark], never [system] again, and two clicks give back a
    theme that was [light] or [dark]. *)
Theorem switchTheme_leaves_system (b : Browser) (clicks : nat) :
  let switched := Nat.iter (S clicks) switchTheme b in
  (getTheme switched = "light" \/ getTheme switched = "dark") /\
  data_color_scheme switched = Some (getTheme switched) /\
  (getTheme (switchTheme b) = "dark"
   <-> getTheme b = "light" \/ getTheme b = "system") /\
  (getTheme b = "light" \/ getTheme b = "dark" ->
   getTheme (switchTheme (switchTheme b)) = getTheme b).
Proof.
  cbn zeta.
  assert (Hstep : forall c,
            (getTheme (switchTheme c) = "light" \/ getTheme (switchTheme c) = "dark") /\
            data_color_scheme (switchTheme c) = Some (getTheme (switchTheme c))).
  { intros c. rewrite getTheme_switchTheme. unfold switchTheme, setTheme.
    rewrite scheme_after_applyTheme.
    match goal with |- context [String.eqb (getTheme ?x) "system"] =>
      change (getTheme x) with (getTheme (setTheme
        (if (String.eqb (getTheme c) "light" || String.eqb (getTheme c) "system")%bool
         then "dark" else "light") c)) end.
    rewrite getTheme_setTheme.
    destruct (String.eqb (getTheme c) "light" || String.eqb (getTheme c) "system")%bool;
      cbn; split; auto. }
  split; [apply Hstep |]. split; [apply Hstep |].
  split.
  - rewrite getTheme_switchTheme.
    destruct (String.eqb_spec (getTheme b) "light") as [-> | Hl]; cbn [orb].
    + split; auto.
    + destruct (String.eqb_spec (getTheme b) "system") as [-> | Hs].
      * split; auto.
      * split; [discriminate | intros [? | ?]; contradiction].
  - intros [H | H]; rewrite !getTheme_switchTheme, H; reflexivity.
Qed.

Lemma switchTheme_leaves_system_witness :
  getTheme (switchTheme (switchTheme (setTheme "dark" fresh_browser))) = "dark".
Proof.
  destruct (switchTheme_leaves_system (setTheme "dark" fresh_browser) 0)
    as (_ & _ & _ & H).
  rewrite H; [reflexivity | right; reflexivity].
Defined.

End Theme.

(** ** More on the store *)

Section StoreProperties.
Import StateManager.

Lemma bind_normal {A B : Type} (m : Eff A) (k : A -> Eff B) (w : World) (a : A) :
  fst (m w) = Normal a -> bind m k w = k a (after m w).
Proof.
  unfold bind, after. destruct (m w) as [c w']. cbn. now intros ->.
Qed.

Lemma bind_throw {A B : Type} (m : Eff A) (k : A -> Eff B) (w : World) (e : error) :
  fst (m w) = Throw e -> bind m k w = (Throw e, after m w).
Proof.
  unfold bind, after. destruct (m w) as [c w']. cbn. now intros ->.
Qed.

Lemma calls_bind {A B : Type} (m : Eff A) (k : A -> Eff B) (w : World) (a : A) :
  fst (m w) = Normal a ->
  invoked (after m w) = invoked w ++ calls m w ->
  invoked (after (k a) (after m w)) = invoked (after m w) ++ calls (k a) (after m w) ->
  calls (bind m k) w = calls m w ++ calls (k a) (after m w).
Proof.
  intros Hn H1 H2. unfold calls at 1. unfold after at 1.
  rewrite (bind_normal m k w a Hn). fold (after (k a) (after m w)).
  rewrite H2, H1, <- app_assoc. now rewrite drop_app_length.
Qed.

Lemma invoked_after_set (beh : behaviour) (key : string) (v : value) (w : World) :
  invoked (after (set beh key v) w) = invoked w ++ calls (set beh key v) w.
Proof. rewrite set_calls, set_run. reflexivity. Qed.

Lemma filter_absent (cb : callback) (cbs : list callback) :
  cb ∉ cbs -> filter (fun l => l ≠ cb) cbs = cbs.
Proof.
  induction cbs as [| c cbs IH]; intros Hn; [reflexivity |].
  apply not_elem_of_cons in Hn as [Hne Hn].
  rewrite filter_cons_True by congruence. f_equal. now apply IH.
Qed.

Lemma filter_self (cb : callback) : filter (fun l => l ≠ cb) [cb] = [].
Proof. rewrite filter_cons_False by (intros H; now apply H). reflexivity. Qed.

Lemma subscribers_after_subscribe (key k : string) (cb : callback) (w : World) :
  subscribers k (after (subscribe key cb) w)
  = if decide (key = k) then subscribers k w ++ [cb] else subscribers k w.
Proof.
  unfold after. rewrite subscribe_run. unfold subscribers at 1, listeners_of. cbn.
  destruct (decide (key = k)) as [-> | Hne].
  - now rewrite lookup_insert_eq.
  - now rewrite lookup_insert_ne.
Qed.

(** The subscribers after an unsubscribe function has been called on a
    store that has a listener array for its key. *)
Lemma subscribers_after_unsubscribe (u : Unsubscribe) (k : string) (w : World) :
  is_Some (listeners_of (closure_key u) w) ->
  fst (unsubscribe u w) = Normal tt /\
  state (stateManager (after (unsubscribe u) w)) = state (stateManager w) /\
  invoked (after (unsubscribe u) w) = invoked w /\
  subscribers k (after (unsubscribe u) w)
  = if decide (closure_key u = k)
    then filter (fun l => l ≠ closure_callback u) (subscribers k w)
    else subscribers k w.
Proof.
  intros [cbs Hcbs]. unfold after. rewrite (unsubscribe_run u w cbs Hcbs).
  cbn [fst snd stateManager state invoked].
  repeat split. unfold subscribers at 1, listeners_of. cbn.
  destruct (decide (closure_key u = k)) as [<- | Hne].
  - rewrite lookup_insert_eq. unfold subscribers. now rewrite Hcbs.
  - now rewrite lookup_insert_ne.
Qed.

Lemma listeners_after_subscribe (key : string) (cb : callback) (w : World) :
  is_Some (listeners_of key (after (subscribe key cb) w)).
Proof.
  unfold after. rewrite subscribe_run. unfold listeners_of. cbn.
  rewrite lookup_insert_eq. eauto.
Qed.



(** How [forEach] ends does not depend on the world it starts in. *)
Lemma forEach_outcome (beh : behaviour) (v : value) (cbs : list callback)
    (a b : World) :
  fst (forEach beh cbs v a) = fst (forEach beh cbs v b).
Proof.
  revert a b. induction cbs as [| c cbs IH]; intros a b; [reflexivity |].
  cbn [forEach]. unfold bind, call. destruct (beh c v); [reflexivity |].
  apply IH.
Qed.

(** How [set] ends depends on the subscribers of the key only. *)
Lemma set_outcome_subscribers (beh : behaviour) (key : string) (v : value)
    (w w' : World) :
  subscribers key w' = subscribers key w ->
  fst (set beh key v w') = fst (set beh key v w).
Proof.
  intros Hsub. unfold set, bind. rewrite !with_state_run.
  unfold notify, listeners_of. cbn [stateManager listeners].
  unfold subscribers, listeners_of in Hsub.
  destruct (listeners (stateManager w') !! key) as [l' |];
    destruct (listeners (stateManager w) !! key) as [l |];
    cbn in Hsub; subst; try reflexivity; apply forEach_outcome.
Qed.

(** X13. [set] does not compare the new value with the stored one: a
    second [set] with the same value leaves the state as the first one
    made it and notifies the subscribers again, exactly as the first one
    did. *)
Theorem set_again_notifies_again
    (beh : behaviour) (key : string) (v : value) (w : World) :
  let w1 := after (set beh key v) w in
  let w2 := after (set beh key v) w1 in
  state (stateManager w2) = state (stateManager w1) /\
  calls (set beh key v) w1 = calls (set beh key v) w /\
  invoked w2
  = invoked w ++ calls (set beh key v) w ++ calls (set beh key v) w /\
  fst (set beh key v w1) = fst (set beh key v w).
Proof.
  cbn zeta.
  assert (Hc : calls (set beh key v) (after (set beh key v) w)
               = calls (set beh key v) w).
  { rewrite !set_calls. now rewrite subscribers_after_set. }
  split; [rewrite !set_run; cbn; apply insert_insert_eq |].
  split; [exact Hc |].
  split; [rewrite !invoked_after_set, Hc; now rewrite <- app_assoc |].
  apply set_outcome_subscribers, subscribers_after_set.
Qed.

End StoreProperties.

(** ** Logging in and out of the store *)

Section AuthState.
Import StateManager AuthService.

Lemma set_raises (beh : behaviour) (key : string) (v : value) (w : World) :
  (exists cb, cb ∈ subscribers key w /\ beh cb v <> None) ->
  exists e, fst (set beh key v w) = Throw e.
Proof.
  intros (cb & Hin & Hr).
  destruct (fst (set beh key v w)) as [[] | e] eqn:E; [| eauto].
  exfalso. apply Hr. now apply (proj1 (set_completion beh key v w) E).
Qed.

(** The two [set] calls of [loginUser] and of [logoutUser]: when the
    first returns, the second runs; when it raises, the second does
    not. *)
Lemma two_sets (beh : behaviour) (k1 k2 : string) (v1 v2 : value) (w : World) :
  k1 <> k2 ->
  let both := bind (set beh k1 v1) (fun _ => set beh k2 v2) in
  get k1 (after both w) = v1 /\
  ((forall cb, cb ∈ subscribers k1 w -> beh cb v1 = None) ->
   get k2 (after both w) = v2 /\
   calls both w
   = calls (set beh k1 v1) w ++ map (fun cb => (cb, v2))
                                    (up_to_first_raise beh v2 (subscribers k2 w)) /\
   fst (both w) = fst (set beh k2 v2 w)) /\
  ((exists cb, cb ∈ subscribers k1 w /\ beh cb v1 <> None) ->
   get k2 (after both w) = get k2 w /\
   calls both w = calls (set beh k1 v1) w /\
   exists e, fst (both w) = Throw e).
Proof.
  intros Hne. cbn zeta. split; [| split].
  - unfold after. destruct (fst (set beh k1 v1 w)) as [[] | e] eqn:E.
    + rewrite (bind_normal _ _ w tt E).
      fold (after (set beh k2 v2) (after (set beh k1 v1) w)).
      rewrite get_after_set_ne by exact Hne. apply get_after_set.
    + rewrite (bind_throw _ _ w e E). apply get_after_set.
  - intros Hall. apply set_completion in Hall.
    split; [| split].
    + unfold after. rewrite (bind_normal _ _ w tt Hall). apply get_after_set.
    + rewrite (calls_bind _ _ w tt Hall); [| apply invoked_after_set ..].
      f_equal. rewrite set_calls. now rewrite subscribers_after_set.
    + rewrite (bind_normal _ _ w tt Hall).
      apply set_outcome_subscribers, subscribers_after_set.
  - intros Hr. destruct (set_raises beh k1 v1 w Hr) as [e He].
    unfold calls, after. rewrite (bind_throw _ _ w e He). cbn [fst snd].
    split; [apply get_after_set_ne; congruence |]. split; [reflexivity | eauto].
Qed.

(** X14. [loginUser] sets [isAuthenticated] before [user]: the
    subscribers of [isAuthenticated] are called first, then those of
    [user].  When a subscriber of [isAuthenticated] raises, the flag is
    set but the [user] entry keeps its old value and no subscriber of
    [user] is told. *)
Theorem loginUser_sets_flag_first (beh : behaviour) (user : User) (w : World) :
  let w' := after (loginUser beh user) w in
  get "isAuthenticated" w' = VBool true /\
  ((forall cb, cb ∈ subscribers "isAuthenticated" w -> beh cb (VBool true) = None) ->
   get "user" w' = VUser user /\
   calls (loginUser beh user) w
   = map (fun cb => (cb, VBool true)) (subscribers "isAuthenticated" w)
     ++ map (fun cb => (cb, VUser user))
            (up_to_first_raise beh (VUser user) (subscribers "user" w))) /\
  ((exists cb, cb ∈ subscribers "isAuthenticated" w /\ beh cb (VBool true) <> None) ->
   get "user" w' = get "user" w /\
   calls (loginUser beh user) w = calls (set beh "isAuthenticated" (VBool true)) w /\
   exists e, fst (loginUser beh user w) = Throw e).
Proof.
  cbn zeta.
  destruct (two_sets beh "isAuthenticated" "user" (VBool true) (VUser user) w)
    as (H1 & H2 & H3); [discriminate |].
  split; [exact H1 |]. split; [| exact H3].
  intros Hall. destruct (H2 Hall) as (Hu & Hc & _).
  split; [exact Hu |]. unfold loginUser. rewrite Hc, set_calls.
  rewrite up_to_first_raise_quiet by now apply quiet_prefix_all.
  reflexivity.
Qed.

Lemma loginUser_sets_flag_first_witness :
  get "user" (after (loginUser first_raises admin_user) header_subscriber) = VNull /\
  get "isAuthenticated" (after (loginUser first_raises admin_user) header_subscriber)
  = VBool true.
Proof.
  destruct (loginUser_sets_flag_first first_raises admin_user header_subscriber)
    as (Hflag & _ & Hraise).
  split; [| exact Hflag].
  destruct Hraise as (Hu & _).
  - exists 1%nat. split; [| discriminate].
    apply list_elem_of_In. left. reflexivity.
  - rewrite Hu. reflexivity.
Defined.

Lemma after_removeItem (key : string) (w : World) :
  removeItem key w
  = (Normal tt,
     {| stateManager := stateManager w;
        sessionStorage := delete key (sessionStorage w);
        invoked := invoked w |}).
Proof. reflexivity. Qed.

Lemma sessionStorage_after_set (beh : behaviour) (key : string) (v : value) (w : World) :
  sessionStorage (after (set beh key v) w) = sessionStorage w.
Proof. now rewrite set_run. Qed.

Lemma sessionStorage_after_two_sets
    (beh : behaviour) (k1 k2 : string) (v1 v2 : value) (w : World) :
  sessionStorage (after (bind (set beh k1 v1) (fun _ => set beh k2 v2)) w)
  = sessionStorage w.
Proof.
  unfold after. destruct (fst (set beh k1 v1 w)) as [[] | e] eqn:E.
  - rewrite (bind_normal _ _ w tt E).
    fold (after (set beh k2 v2) (after (set beh k1 v1) w)).
    now rewrite !sessionStorage_after_set.
  - rewrite (bind_throw _ _ w e E). apply sessionStorage_after_set.
Qed.

(** X15. [logout] always removes the persisted user from the session
    storage, leaves the other persisted items, and sets [isAuthenticated]
    to false, whatever the subscribers do.  When the subscribers of
    [isAuthenticated] return, [user] is set to [null]; when one of them
    raises, [logout] raises and the store keeps the user object it
    had. *)
Theorem logout_clears_session (beh : behaviour) (w : World) :
  let w' := after (logout beh) w in
  sessionStorage w' !! "authUser" = None /\
  (forall k, k <> "authUser" -> sessionStorage w' !! k = sessionStorage w !! k) /\
  get "isAuthenticated" w' = VBool false /\
  ((forall cb, cb ∈ subscribers "isAuthenticated" w -> beh cb (VBool false) = None) ->
   get "user" w' = VNull) /\
  ((exists cb, cb ∈ subscribers "isAuthenticated" w /\ beh cb (VBool false) <> None) ->
   get "user" w' = get "user" w /\ exists e, fst (logout beh w) = Throw e).
Proof.
  cbn zeta. unfold logout.
  assert (Hn : fst (removeItem "authUser" w) = Normal tt) by reflexivity.
  unfold after. rewrite (bind_normal _ _ w tt Hn).
  set (w0 := after (removeItem "authUser") w).
  assert (Hs0 : sessionStorage w0 = delete "authUser" (sessionStorage w)) by reflexivity.
  assert (Hg0 : forall k, get k w0 = get k w) by reflexivity.
  assert (Hsub0 : forall k, subscribers k w0 = subscribers k w) by reflexivity.
  unfold logoutUser.
  fold (after (bind (set beh "isAuthenticated" (VBool false))
                    (fun _ => set beh "user" VNull)) w0).
  destruct (two_sets beh "isAuthenticated" "user" (VBool false) VNull w0)
    as (H1 & H2 & H3); [discriminate |].
  split; [rewrite sessionStorage_after_two_sets, Hs0; apply lookup_delete_eq |].
  split.
  { intros k Hk. rewrite sessionStorage_after_two_sets, Hs0.
    now apply lookup_delete_ne. }
  split; [exact H1 |]. split.
  - intros Hall. apply H2. intros cb Hcb. apply Hall. now rewrite <- Hsub0.
  - intros (cb & Hcb & Hr). rewrite <- (Hg0 "user").
    destruct H3 as (Hu & _ & He); [exists cb; rewrite Hsub0; auto |].
    split; [exact Hu | exact He].
Qed.

End AuthState.

Section AuthRoundTrip.
Import StateManager AuthService.

(** Logging in with the accepted pair and then out, when no callback
    raises: nothing is persisted and the store says logged out. *)
Lemma logout_clears_session_witness :
  let logged_in := snd (login all_return "admin" "password" header_subscriber) in
  sessionStorage logged_in !! "authUser" = Some (JSON_stringify admin_user) /\
  sessionStorage (after (logout all_return) logged_in) !! "authUser" = None /\
  get "user" (after (logout all_return) logged_in) = VNull.
Proof.
  cbn zeta. split; [reflexivity |].
  destruct (logout_clears_session all_return
              (snd (login all_return "admin" "password" header_subscriber)))
    as (Hs & _ & _ & Hu & _).
  split; [exact Hs |]. apply Hu. intros cb _. reflexivity.
Defined.

End AuthRoundTrip.

(** ** The subscriptions of the chart manager *)

Section ChartSubscriptions.
Import StateManager ChartManager.

(** X16. When the chart manager subscribes two new callbacks and is then
    destroyed, every key has the subscribers it had before, in the same
    order, the state is untouched and no callback has been called; its
    list of unsubscribe functions is empty, so that destroying it again
    does nothing. *)
Theorem chart_subscriptions_undone_by_destroy
    (onHistorical onForecasts : callback) (w : World) :
  onHistorical ∉ subscribers "historicalData" w ->
  onForecasts ∉ subscribers "forecasts" w ->
  exists (unsubscribers : list Unsubscribe) (w1 w2 : World),
    setupStateSubscriptions onHistorical onForecasts [] w = (Normal unsubscribers, w1) /\
    subscribers "historicalData" w1 = subscribers "historicalData" w ++ [onHistorical] /\
    subscribers "forecasts" w1 = subscribers "forecasts" w ++ [onForecasts] /\
    destroy unsubscribers w1 = (Normal [], w2) /\
    (forall k, subscribers k w2 = subscribers k w) /\
    state (stateManager w2) = state (stateManager w) /\
    invoked w2 = invoked w /\
    destroy [] w2 = (Normal [], w2).
Proof.
  intros HnH HnF.
  set (uH := {| closure_key := "historicalData"; closure_callback := onHistorical |}).
  set (uF := {| closure_key := "forecasts"; closure_callback := onForecasts |}).
  set (wa := after (subscribe "historicalData" onHistorical) w).
  set (wb := after (subscribe "forecasts" onForecasts) wa).
  set (wc := after (unsubscribe uH) wb).
  set (wd := after (unsubscribe uF) wc).
  exists [uH; uF], wb, wd.
  assert (HlH : is_Some (listeners_of "historicalData" wb)).
  { unfold wb, after. rewrite subscribe_run. unfold listeners_of. cbn.
    rewrite lookup_insert_ne by discriminate.
    apply (listeners_after_subscribe "historicalData" onHistorical w). }
  destruct (subscribers_after_unsubscribe uH "historicalData" wb HlH)
    as (HnormH & HstH & HinvH & _).
  assert (HlF : is_Some (listeners_of "forecasts" wc)).
  { destruct HlH as [cbs Hcbs]. unfold wc, after.
    rewrite (unsubscribe_run uH wb cbs Hcbs). unfold listeners_of. cbn.
    rewrite lookup_insert_ne by discriminate.
    apply (listeners_after_subscribe "forecasts" onForecasts wa). }
  destruct (subscribers_after_unsubscribe uF "forecasts" wc HlF)
    as (HnormF & HstF & HinvF & _).
  split.
  { unfold setupStateSubscriptions.
    rewrite (bind_normal _ _ w uH) by now rewrite subscribe_run.
    fold wa. rewrite (bind_normal _ _ wa uF) by now rewrite subscribe_run.
    reflexivity. }
  split.
  { unfold wb, wa. rewrite !subscribers_after_subscribe.
    rewrite decide_False by discriminate. now rewrite decide_True. }
  split.
  { unfold wb, wa. rewrite !subscribers_after_subscribe.
    rewrite decide_True by reflexivity. now rewrite decide_False. }
  assert (Hall : call_all [uH; uF] wb = (Normal tt, wd)).
  { cbn [call_all]. rewrite (bind_normal _ _ wb tt HnormH). fold wc.
    rewrite (bind_normal _ _ wc tt HnormF). reflexivity. }
  split.
  { unfold destroy. rewrite (bind_normal _ _ wb tt) by now rewrite Hall.
    unfold after. now rewrite Hall. }
  assert (Hsub : forall k, subscribers k wd = subscribers k w).
  { intros k. unfold wd.
    destruct (subscribers_after_unsubscribe uF k wc HlF) as (_ & _ & _ & ->).
    destruct (subscribers_after_unsubscribe uH k wb HlH) as (_ & _ & _ & HsH).
    fold wc in HsH.
    assert (Hwb : subscribers k wb
                  = if decide ("forecasts" = k) then subscribers k w ++ [onForecasts]
                    else if decide ("historicalData" = k)
                         then subscribers k w ++ [onHistorical]
                         else subscribers k w).
    { unfold wb, wa. rewrite !subscribers_after_subscribe.
      destruct (decide ("forecasts" = k)) as [<- | ?]; [| reflexivity].
      now rewrite decide_False by discriminate. }
    cbn [closure_key closure_callback uH uF] in *.
    destruct (decide ("forecasts" = k)) as [<- | HkF].
    - rewrite HsH, decide_False by discriminate. rewrite Hwb.
      rewrite filter_app, filter_self, app_nil_r. now apply filter_absent.
    - rewrite HsH, Hwb. destruct (decide ("historicalData" = k)) as [<- | HkH];
        [| reflexivity].
      rewrite filter_app, filter_self, app_nil_r. now apply filter_absent. }
  split; [exact Hsub |].
  split.
  { unfold wd. rewrite HstF. unfold wc. rewrite HstH.
    unfold wb, wa, after. now rewrite !subscribe_run. }
  split.
  { unfold wd. rewrite HinvF. unfold wc. rewrite HinvH.
    unfold wb, wa, after. now rewrite !subscribe_run. }
  reflexivity.
Qed.

Lemma chart_subscriptions_undone_by_destroy_witness :
  exists (unsubscribers : list Unsubscribe) (w1 w2 : World),
    setupStateSubscriptions 5%nat 6%nat [] three_subscribers = (Normal unsubscribers, w1) /\
    destroy unsubscribers w1 = (Normal [], w2) /\
    subscribers "currentStatus" w2 = [1%nat; 2%nat; 3%nat].
Proof.
  destruct (chart_subscriptions_undone_by_destroy 5%nat 6%nat three_subscribers)
    as (us & w1 & w2 & Hsetup & _ & _ & Hdestroy & Hsub & _).
  - intros H. inversion H.
  - intros H. inversion H.
  - exists us, w1, w2. split; [exact Hsetup |]. split; [exact Hdestroy |].
    rewrite Hsub. reflexivity.
Defined.

End ChartSubscriptions.

(** ** Ticks *)

Section Ticks.
Import Config DataManager.


(** X17. A tick that finds no status in the store (nothing, [null] or
    another falsy value) does nothing: it returns, and the store, the
    history and the record of calls are as before. *)
Theorem tick_without_status_does_nothing
    (cfg : Config) (beh : behaviour) (rand : nat -> Q) (now t : string) (w : World) :
  truthy (StateManager.get "currentStatus" w) = false ->
  updateRealTimeData cfg beh rand now t w = (Normal tt, w).
Proof.
  intros Hf. unfold updateRealTimeData.
  destruct (StateManager.get "currentStatus" w); try discriminate Hf;
    try (rewrite Hf; reflexivity); reflexivity.
Qed.

Lemma tick_without_status_does_nothing_witness :
  updateRealTimeData CONFIG first_raises slight_rise
    "2025-09-27T11:03:05.000Z" "16:33" three_subscribers
  = (Normal tt, three_subscribers).
Proof.
  apply tick_without_status_does_nothing. reflexivity.
Defined.




End Ticks.

Section HistoryLength.
Import Config DataManager.









End HistoryLength.

(** ** The first version of the generator *)

Section FirstVersion.
Import Utils EnergyManagementSystem.




End FirstVersion.

(** ** Starting and stopping the updates *)

#[local] Set Warnings "-clear-no-such-hyp".

Section Lifecycle.
Import DataManager.

Lemma lifecycle_step_invariant (r : Runtime) (c : lifecycle_call) :
  timers_consistent r ->
  timers_consistent (lifecycle_step r c) /\
  armed (lifecycle_step r c) ∖ own_timer (lifecycle_step r c)
  = armed r ∖ own_timer r /\
  world (lifecycle_step r c) = world r /\
  (updateInterval (lifecycle_step r c) = None <-> c <> CallStart).
Proof.
  intros [Hbelow Hown].
  assert (Hfresh : next_timer r ∉ armed r).
  { intros Hin. apply Hbelow in Hin. lia. }
  destruct c; cbn [lifecycle_step]; unfold destroy, startRealTimeUpdates,
    stopRealTimeUpdates, own_timer, timers_consistent;
    destruct (updateInterval r) as [id |] eqn:E; cbn.
  - split; [split |].
    + intros i Hi. apply elem_of_union in Hi as [Hi | Hi].
      * apply elem_of_singleton in Hi. lia.
      * apply elem_of_difference in Hi as [Hi _]. apply Hbelow in Hi. lia.
    + intros i [= <-]. set_solver.
    + split; [set_solver |]. split; [reflexivity |].
      split; [discriminate | intros H; now contradiction H].
  - split; [split |].
    + intros i Hi. apply elem_of_union in Hi as [Hi | Hi].
      * apply elem_of_singleton in Hi. lia.
      * apply Hbelow in Hi. lia.
    + intros i [= <-]. set_solver.
    + split; [set_solver |]. split; [reflexivity |].
      split; [discriminate | intros H; now contradiction H].
  - split; [split |].
    + intros i Hi. apply elem_of_difference in Hi as [Hi _]. now apply Hbelow.
    + discriminate.
    + split; [set_solver |]. split; [reflexivity |]. split; [discriminate | reflexivity].
  - rewrite E. split; [split; [exact Hbelow | discriminate] |].
    split; [set_solver |]. split; [reflexivity |]. split; [discriminate | reflexivity].
  - split; [split |].
    + intros i Hi. apply elem_of_difference in Hi as [Hi _]. now apply Hbelow.
    + discriminate.
    + split; [set_solver |]. split; [reflexivity |]. split; [discriminate | reflexivity].
  - rewrite E. split; [split; [exact Hbelow | discriminate] |].
    split; [set_solver |]. split; [reflexivity |]. split; [discriminate | reflexivity].
Qed.

(** X22. After any sequence of [startRealTimeUpdates], [stopRealTimeUpdates]
    and [destroy] calls, the data manager has one timer armed when the
    last call was a start and none when it was a stop or a destroy: a
    start clears the timer of the start before it.  The timers of other
    components are never cleared and the store is not touched.  Stopping
    twice is stopping once. *)
Theorem updates_arm_at_most_one_timer (calls : list lifecycle_call) (r : Runtime) :
  timers_consistent r ->
  let r' := lifecycle calls r in
  timers_consistent r' /\
  armed r' ∖ own_timer r' = armed r ∖ own_timer r /\
  world r' = world r /\
  (forall c, last calls = Some c ->
     (c = CallStart -> exists id, updateInterval r' = Some id /\ own_timer r' = {[id]} /\
                                  id ∈ armed r') /\
     (c <> CallStart -> updateInterval r' = None /\ own_timer r' = ∅)) /\
  stopRealTimeUpdates (stopRealTimeUpdates r') = stopRealTimeUpdates r'.
Proof.
  intros Hc. cbn zeta.
  assert (Hidem : forall x, stopRealTimeUpdates (stopRealTimeUpdates x)
                            = stopRealTimeUpdates x).
  { intros x. unfold stopRealTimeUpdates at 2 3.
    destruct (updateInterval x) as [id |] eqn:E.
    - reflexivity.
    - unfold stopRealTimeUpdates. now rewrite E. }
  induction calls as [| c calls IH] using rev_ind.
  - cbn. split; [exact Hc |]. split; [reflexivity |]. split; [reflexivity |].
    split; [intros c H; discriminate H | apply Hidem].
  - destruct IH as (Hc' & Harm & Hw & _ & _).
    unfold lifecycle. rewrite fold_left_app. cbn [fold_left].
    fold (lifecycle calls r).
    destruct (lifecycle_step_invariant (lifecycle calls r) c Hc')
      as ([Hb2 Ho2] & Harm2 & Hw2 & Hnone).
    split; [split; assumption |].
    split; [now rewrite Harm2 |]. split; [now rewrite Hw2 |].
    split; [| apply Hidem].
    intros c' Hlast. rewrite last_snoc in Hlast. injection Hlast as <-.
    split.
    + intros ->.
      destruct (updateInterval (lifecycle_step (lifecycle calls r) CallStart))
        as [id |] eqn:E.
      * exists id. split; [reflexivity |]. unfold own_timer. rewrite E.
        split; [reflexivity | now apply Ho2].
      * exfalso. now apply (proj1 Hnone).
    + intros Hne. apply Hnone in Hne. split; [exact Hne |].
      unfold own_timer. now rewrite Hne.
Qed.

Lemma updates_arm_at_most_one_timer_witness :
  armed (lifecycle [CallStart; CallStart; CallStop; CallStart] page_loaded)
  ∖ own_timer (lifecycle [CallStart; CallStart; CallStop; CallStart] page_loaded)
  = {[1%positive]}.
Proof.
  destruct (updates_arm_at_most_one_timer
              [CallStart; CallStart; CallStop; CallStart] page_loaded)
    as (_ & Harm & _).
  - split.
    + intros id Hid. change (id ∈ ({[1%positive]} : gset positive)) in Hid.
      apply elem_of_singleton in Hid. subst id. reflexivity.
    + intros id H. discriminate H.
  - rewrite Harm. apply difference_empty_L.
Defined.

End Lifecycle.

(** ** Loading the initial data *)

Section Initialisation.
Import DataManager.

Lemma set_quiet (beh : behaviour) (key : string) (v : value) (w : World) :
  (forall cb v', beh cb v' = None) ->
  StateManager.set beh key v w = (Normal tt, after (StateManager.set beh key v) w).
Proof.
  intros Hq. rewrite (pair_eta (StateManager.set beh key v w)). f_equal.
  apply set_completion. intros cb _. apply Hq.
Qed.

Lemma bind_set_quiet {B : Type} (beh : behaviour) (key : string) (v : value)
    (k : unit -> Eff B) (w : World) :
  (forall cb v', beh cb v' = None) ->
  bind (StateManager.set beh key v) k w = k tt (after (StateManager.set beh key v) w).
Proof.
  intros Hq. apply bind_normal. now rewrite set_quiet.
Qed.

Lemma try_finally_run {A : Type} (body : Eff A) (cleanup : Eff unit) (w : World) :
  fst (cleanup (after body w)) = Normal tt ->
  try_finally body cleanup w = (fst (body w), after cleanup (after body w)).
Proof.
  unfold try_finally, after. destruct (body w) as [c w1]. cbn.
  destruct (cleanup w1) as [c2 w2]. cbn. now intros ->.
Qed.

(** The world after the initial data has been loaded, when no callback
    raises. *)
Lemma loadInitialData_resolved (beh : behaviour) (data : InitialData) (w : World) :
  (forall cb v', beh cb v' = None) ->
  loadInitialData beh (inl data) w
  = (Normal tt,
     after (StateManager.set beh "loading" (VBool false))
       (after (StateManager.set beh "error" VNull)
         (after (StateManager.set beh "alerts" (api_alerts data))
           (after (StateManager.set beh "recommendations" (api_recommendations data))
             (after (StateManager.set beh "forecasts" (api_forecasts data))
               (after (StateManager.set beh "historicalData" (api_historical data))
                 (after (StateManager.set beh "currentStatus" (VStatus (api_status data)))
                   (after (StateManager.set beh "loading" (VBool true)) w)))))))).
Proof.
  intros Hq. unfold loadInitialData, StateManager.setLoading,
    StateManager.updateCurrentStatus, StateManager.updateHistoricalData,
    StateManager.updateForecasts, StateManager.updateRecommendations,
    StateManager.updateAlerts, StateManager.clearError.
  rewrite (bind_set_quiet beh _ _ _ w Hq).
  set (w1 := after (StateManager.set beh "loading" (VBool true)) w).
  assert (Hbody :
    bind (StateManager.set beh "currentStatus" (VStatus (api_status data))) (fun _ =>
      bind (StateManager.set beh "historicalData" (api_historical data)) (fun _ =>
      bind (StateManager.set beh "forecasts" (api_forecasts data)) (fun _ =>
      bind (StateManager.set beh "recommendations" (api_recommendations data)) (fun _ =>
      bind (StateManager.set beh "alerts" (api_alerts data)) (fun _ =>
      StateManager.set beh "error" VNull))))) w1
    = (Normal tt,
       after (StateManager.set beh "error" VNull)
         (after (StateManager.set beh "alerts" (api_alerts data))
           (after (StateManager.set beh "recommendations" (api_recommendations data))
             (after (StateManager.set beh "forecasts" (api_forecasts data))
               (after (StateManager.set beh "historicalData" (api_historical data))
                 (after (StateManager.set beh "currentStatus"
                           (VStatus (api_status data))) w1))))))).
  { rewrite !(bind_set_quiet beh _ _ _ _ Hq). now apply set_quiet. }
  rewrite try_finally_run.
  - unfold after at 1 2. rewrite Hbody. reflexivity.
  - now rewrite set_quiet.
Qed.

Lemma loadInitialData_rejected (beh : behaviour) (e : error) (w : World) :
  (forall cb v', beh cb v' = None) ->
  loadInitialData beh (inr e) w
  = (Throw e,
     after (StateManager.set beh "loading" (VBool false))
       (after (StateManager.set beh "loading" (VBool true)) w)).
Proof.
  intros Hq. unfold loadInitialData, StateManager.setLoading.
  rewrite (bind_set_quiet beh _ _ _ w Hq).
  rewrite try_finally_run; [reflexivity |]. now rewrite set_quiet.
Qed.

(** X23. When no subscriber raises, [init] always ends normally with the
    loading flag off.  If the API answered, the store holds the five
    answers and no error, and the updates are started: a new timer is
    armed and held.  If the API failed, the error entry holds the message
    [Failed to load initial data], no other entry but the loading flag has
    changed and the updates are not started: the timers are as before. *)
Theorem init_loads_then_starts
    (beh : behaviour) (api : InitialData + error) (r : Runtime) :
  (forall cb v, beh cb v = None) ->
  let r' := snd (init beh api r) in
  fst (init beh api r) = Normal tt /\
  StateManager.get "loading" (world r') = VBool false /\
  match api with
  | inl data =>
      StateManager.get "error" (world r') = VNull /\
      StateManager.get "currentStatus" (world r') = VStatus (api_status data) /\
      StateManager.get "historicalData" (world r') = api_historical data /\
      StateManager.get "forecasts" (world r') = api_forecasts data /\
      StateManager.get "recommendations" (world r') = api_recommendations data /\
      StateManager.get "alerts" (world r') = api_alerts data /\
      updateInterval r' = Some (next_timer r) /\
      next_timer r ∈ armed r'
  | inr _ =>
      StateManager.get "error" (world r') = VString "Failed to load initial data" /\
      (forall k, k <> "loading" -> k <> "error" ->
         StateManager.get k (world r') = StateManager.get k (world r)) /\
      updateInterval r' = updateInterval r /\
      armed r' = armed r
  end.
Proof.
  intros Hq. cbn zeta. unfold init. destruct api as [data | e].
  - rewrite (loadInitialData_resolved beh data (world r) Hq).
    cbn [fst snd]. split; [reflexivity |].
    assert (Hw : forall w x, world (startRealTimeUpdates (set_world w x)) = w).
    { intros w x. unfold startRealTimeUpdates.
      destruct (updateInterval (set_world w x)); reflexivity. }
    rewrite Hw.
    split; [apply get_after_set |].
    repeat (split;
      [repeat (rewrite get_after_set_ne by discriminate); apply get_after_set |]).
    unfold startRealTimeUpdates, set_world; cbn.
    destruct (updateInterval r); cbn; split; try reflexivity; set_solver.
  - rewrite (loadInitialData_rejected beh e (world r) Hq).
    unfold StateManager.setError. rewrite (set_quiet beh _ _ _ Hq).
    cbn [fst snd world set_world]. split; [reflexivity |].
    split; [rewrite get_after_set_ne by discriminate; apply get_after_set |].
    split; [apply get_after_set |].
    split; [| split; reflexivity].
    intros k Hk1 Hk2.
    now rewrite !get_after_set_ne by congruence.
Qed.

Lemma init_loads_then_starts_witness :
  StateManager.get "currentStatus"
    (world (snd (init all_return (inl afternoon_data) page_loaded)))
  = VStatus afternoon /\
  updateInterval (snd (init all_return (inl afternoon_data) page_loaded))
  = Some 2%positive.
Proof.
  destruct (init_loads_then_starts all_return (inl afternoon_data) page_loaded)
    as (_ & _ & _ & Hst & _ & _ & _ & _ & Hi & _).
  - intros cb v. reflexivity.
  - split; [exact Hst | exact Hi].
Defined.

End Initialisation.
